(** * FloatCtrl: the bounded numeric text entry of [lib/wx/wxlib.py]

    A shallow embedding of [set_float], [closure] and [FloatCtrl] (Python 2,
    wxPython), with the properties of the control stated and proved over it.

    Modelling conventions.
    - A Python [float] is an IEEE-754 binary64 number: [spec_float] of the
      Standard Library, compared with [SFltb].  Python 2 orders [None] below
      every number, and [__CheckValid] relies on it.
    - The builtins the source calls but does not define ([float(str)], the
      [%] formatting operator, [fpformat.fix]) and the caret policy of
      [wx.TextCtrl.SetValue] are the fields of the class [PyEnv]: every
      theorem holds for all of them.
    - The widget ([wx.TextCtrl]) is the display part of the state record:
      text, selection, colours.  [wx.Bell] and the calls of the user's action
      are logged in the state.
    - A method that can raise is a computation in the monad [M]: the state
      after the call, and either the exception or the result.  The state is
      kept when an exception is raised, as attribute assignments are in
      Python.
    - The toolkit delivers events between method calls: [onChar] and [onText]
      are operations of their own, and [wx.TextCtrl.SetValue] is the
      replacement of the text; the text event it announces reaches [onText]
      as a later step. *)

From Stdlib Require Import ZArith String Ascii List Bool Lia.
From Stdlib Require Import Floats.SpecFloat.
From stdpp Require Import base gmap strings pretty.

Local Open Scope string_scope.

(** ** Python values *)

(** [float]: binary64. *)
Definition float : Type := spec_float.

Definition prec64 : Z := 53.
Definition emax64 : Z := 1024.

(** The float nearest to an integer, as [float(n)] gives it. *)
Definition float_of_Z (z : Z) : float := binary_normalize prec64 emax64 z 0 false.

(** The values that reach [set_float] and [SetValue]: [None], a string or a
    float. *)
Inductive pyval : Type :=
  | PyNone
  | PyStr (s : string)
  | PyFloat (x : float).

Definition pyval_of (o : option float) : pyval :=
  match o with
  | None => PyNone
  | Some x => PyFloat x
  end.

(** [value == None] *)
Definition is_PyNone (v : pyval) : bool :=
  match v with
  | PyNone => true
  | _ => false
  end.

Inductive exn : Type :=
  | TypeError
  | ValueError
  | OverflowError.

(** [a < b] and [a > b] of Python 2 on [None] and floats: [None] is below
    every float, and a comparison with a NaN is false. *)
Definition py_lt (a b : option float) : bool :=
  match a, b with
  | None, None => false
  | None, Some _ => true
  | Some _, None => false
  | Some x, Some y => SFltb x y
  end.

Definition py_gt (a b : option float) : bool := py_lt b a.

(** [a <= b] and [a < b] on floats, for the statements. *)
Definition float_le (x y : float) : bool := SFleb x y.
Definition float_lt (x y : float) : bool := SFltb x y.

Definition is_nan (x : float) : bool :=
  match x with
  | S754_nan => true
  | _ => false
  end.

(** ** Strings *)

(** The whitespace of [str.strip()]: tab, newline, vertical tab, form feed,
    carriage return, space. *)
Definition is_space (c : ascii) : bool :=
  match N_of_ascii c with
  | 9%N | 10%N | 11%N | 12%N | 13%N | 32%N => true
  | _ => false
  end.

Fixpoint lstrip (s : string) : string :=
  match s with
  | EmptyString => EmptyString
  | String c s' => if is_space c then lstrip s' else s
  end.

Fixpoint rstrip (s : string) : string :=
  match s with
  | EmptyString => EmptyString
  | String c s' =>
      match rstrip s' with
      | EmptyString => if is_space c then EmptyString else String c EmptyString
      | r => String c r
      end
  end.

Definition strip (s : string) : string := rstrip (lstrip s).

(** [c in s] for a one-character string [c]. *)
Fixpoint py_in (c : ascii) (s : string) : bool :=
  match s with
  | EmptyString => false
  | String d s' => Ascii.eqb c d || py_in c s'
  end.

(** [len(s)] *)
Definition len (s : string) : nat := String.length s.

(** [chr(key)], for the key codes that reach it (32..255). *)
Definition chr (key : Z) : ascii := ascii_of_N (Z.to_N key).

(** ** The builtins and the toolkit policy the source relies on *)

Class PyEnv : Type := {
  (** [float(s)] on a non-empty string; [None] stands for [ValueError]. *)
  py_float : string -> option float;
  (** [('%%.%if' % p) % x] on a float [x], for a precision [p] that Python
      formats. *)
  py_format_fixed : Z -> float -> string;
  (** [fpformat.fix(x, digs)] *)
  fpformat_fix : option float -> Z -> string;
  (** Where [wx.TextCtrl.SetValue] leaves the caret in the new text. *)
  wx_caret_after_SetValue : string -> nat
}.

(** [int(x)]: [None] is a [TypeError], a NaN a [ValueError], an infinity an
    [OverflowError]; a finite float is truncated towards zero. *)
Definition py_int (o : option float) : exn + Z :=
  match o with
  | None => inl TypeError
  | Some (S754_zero _) => inr 0%Z
  | Some (S754_infinity _) => inl OverflowError
  | Some S754_nan => inl ValueError
  | Some (S754_finite s m e) =>
      inr (cond_Zopp s (if (0 <=? e)%Z then Z.shiftl (Zpos m) e
                        else Z.shiftr (Zpos m) (- e)))
  end.

(** ** [set_float] *)

Section Model.

Context `{PyEnv}.

(** [[
def set_float(val,default=None):
    if val in (None,''): return default
    try:
        return float(val)
    except ValueError:
        return default
]] *)
Definition set_float (val : pyval) (default : option float) : option float :=
  match val with
  | PyNone => default
  | PyStr EmptyString => default
  | PyStr s =>
      match py_float s with
      | Some x => Some x
      | None => default
      end
  | PyFloat x => Some x
  end.

(** ** [closure] *)

(** A Python callable is known by its name. *)
Definition callable : Type := string.

(** [[
class closure:
    def __init__(self,func=None,*args, **kw):
        self.func  = func
        self.kw    = kw
        self.args  = args
]] *)
Record closure : Type := {
  func : option callable;
  kw : gmap string pyval;
  args : list pyval
}.

(** [closure()] *)
Definition closure__init__ : closure := {| func := None; kw := ∅; args := [] |}.

(** One call of the user's function: [apply(func, args, kw)]. *)
Record call : Type := {
  call_func : callable;
  call_args : list pyval;
  call_kw : gmap string pyval
}.

(** ** The control *)

Inductive colour : Type :=
  | SystemDefault
  | Named (name : string)
  | RGB (r g b : Z).

Record FloatCtrl : Type := {
  (* the wx.TextCtrl part *)
  tc_value : string;
  tc_selection : nat * nat;
  fg_colour : colour;
  bg_colour : colour;
  (* the attributes of FloatCtrl *)
  __prec : Z;
  format : Z;                 (* the precision p of the string '%.pf' *)
  __val : option float;
  __max : option float;
  __min : option float;
  __valid : bool;
  __bound_val : option float;
  __mark : nat;
  __action : closure;
  (* what the control did to its surroundings *)
  bells : nat;
  calls : list call
}.

Definition __digits : string := "0123456789.-".
Definition fgcol_valid : colour := Named "Black".
Definition bgcol_valid : colour := Named "White".
Definition fgcol_invalid : colour := Named "Red".
Definition bgcol_invalid : colour := RGB 254 254 80.

Definition WXK_RETURN : Z := 13.
Definition WXK_SPACE : Z := 32.
Definition WXK_DELETE : Z := 127.

(** Attribute assignments. *)

Definition set_tc (t : string) (sel : nat * nat) (c : FloatCtrl) : FloatCtrl :=
  {| tc_value := t; tc_selection := sel;
     fg_colour := fg_colour c; bg_colour := bg_colour c;
     __prec := __prec c; format := format c; __val := __val c;
     __max := __max c; __min := __min c; __valid := __valid c;
     __bound_val := __bound_val c; __mark := __mark c;
     __action := __action c; bells := bells c; calls := calls c |}.

Definition set_colours (fg bg : colour) (c : FloatCtrl) : FloatCtrl :=
  {| tc_value := tc_value c; tc_selection := tc_selection c;
     fg_colour := fg; bg_colour := bg;
     __prec := __prec c; format := format c; __val := __val c;
     __max := __max c; __min := __min c; __valid := __valid c;
     __bound_val := __bound_val c; __mark := __mark c;
     __action := __action c; bells := bells c; calls := calls c |}.

Definition set_prec (p : Z) (c : FloatCtrl) : FloatCtrl :=
  {| tc_value := tc_value c; tc_selection := tc_selection c;
     fg_colour := fg_colour c; bg_colour := bg_colour c;
     __prec := p; format := p; __val := __val c;
     __max := __max c; __min := __min c; __valid := __valid c;
     __bound_val := __bound_val c; __mark := __mark c;
     __action := __action c; bells := bells c; calls := calls c |}.

Definition set_val (v : option float) (c : FloatCtrl) : FloatCtrl :=
  {| tc_value := tc_value c; tc_selection := tc_selection c;
     fg_colour := fg_colour c; bg_colour := bg_colour c;
     __prec := __prec c; format := format c; __val := v;
     __max := __max c; __min := __min c; __valid := __valid c;
     __bound_val := __bound_val c; __mark := __mark c;
     __action := __action c; bells := bells c; calls := calls c |}.

Definition set_max (v : option float) (c : FloatCtrl) : FloatCtrl :=
  {| tc_value := tc_value c; tc_selection := tc_selection c;
     fg_colour := fg_colour c; bg_colour := bg_colour c;
     __prec := __prec c; format := format c; __val := __val c;
     __max := v; __min := __min c; __valid := __valid c;
     __bound_val := __bound_val c; __mark := __mark c;
     __action := __action c; bells := bells c; calls := calls c |}.

Definition set_min (v : option float) (c : FloatCtrl) : FloatCtrl :=
  {| tc_value := tc_value c; tc_selection := tc_selection c;
     fg_colour := fg_colour c; bg_colour := bg_colour c;
     __prec := __prec c; format := format c; __val := __val c;
     __max := __max c; __min := v; __valid := __valid c;
     __bound_val := __bound_val c; __mark := __mark c;
     __action := __action c; bells := bells c; calls := calls c |}.

Definition set_valid (b : bool) (c : FloatCtrl) : FloatCtrl :=
  {| tc_value := tc_value c; tc_selection := tc_selection c;
     fg_colour := fg_colour c; bg_colour := bg_colour c;
     __prec := __prec c; format := format c; __val := __val c;
     __max := __max c; __min := __min c; __valid := b;
     __bound_val := __bound_val c; __mark := __mark c;
     __action := __action c; bells := bells c; calls := calls c |}.

Definition set_bound_val (v : option float) (c : FloatCtrl) : FloatCtrl :=
  {| tc_value := tc_value c; tc_selection := tc_selection c;
     fg_colour := fg_colour c; bg_colour := bg_colour c;
     __prec := __prec c; format := format c; __val := __val c;
     __max := __max c; __min := __min c; __valid := __valid c;
     __bound_val := v; __mark := __mark c;
     __action := __action c; bells := bells c; calls := calls c |}.

Definition set_mark (m : nat) (c : FloatCtrl) : FloatCtrl :=
  {| tc_value := tc_value c; tc_selection := tc_selection c;
     fg_colour := fg_colour c; bg_colour := bg_colour c;
     __prec := __prec c; format := format c; __val := __val c;
     __max := __max c; __min := __min c; __valid := __valid c;
     __bound_val := __bound_val c; __mark := m;
     __action := __action c; bells := bells c; calls := calls c |}.

Definition set_action (a : closure) (c : FloatCtrl) : FloatCtrl :=
  {| tc_value := tc_value c; tc_selection := tc_selection c;
     fg_colour := fg_colour c; bg_colour := bg_colour c;
     __prec := __prec c; format := format c; __val := __val c;
     __max := __max c; __min := __min c; __valid := __valid c;
     __bound_val := __bound_val c; __mark := __mark c;
     __action := a; bells := bells c; calls := calls c |}.

Definition set_bells (n : nat) (c : FloatCtrl) : FloatCtrl :=
  {| tc_value := tc_value c; tc_selection := tc_selection c;
     fg_colour := fg_colour c; bg_colour := bg_colour c;
     __prec := __prec c; format := format c; __val := __val c;
     __max := __max c; __min := __min c; __valid := __valid c;
     __bound_val := __bound_val c; __mark := __mark c;
     __action := __action c; bells := n; calls := calls c |}.

Definition set_calls (l : list call) (c : FloatCtrl) : FloatCtrl :=
  {| tc_value := tc_value c; tc_selection := tc_selection c;
     fg_colour := fg_colour c; bg_colour := bg_colour c;
     __prec := __prec c; format := format c; __val := __val c;
     __max := __max c; __min := __min c; __valid := __valid c;
     __bound_val := __bound_val c; __mark := __mark c;
     __action := __action c; bells := bells c; calls := l |}.

(** ** Methods that can raise: state and exception *)

Definition M (A : Type) : Type := FloatCtrl -> FloatCtrl * (exn + A).

Definition ret {A} (a : A) : M A := fun c => (c, inr a).

Definition bind {A B} (m : M A) (k : A -> M B) : M B :=
  fun c =>
    match m c with
    | (c', inl e) => (c', inl e)
    | (c', inr a) => k a c'
    end.

Definition raise {A} (e : exn) : M A := fun c => (c, inl e).
Definition get : M FloatCtrl := fun c => (c, inr c).
Definition modify (f : FloatCtrl -> FloatCtrl) : M unit := fun c => (f c, inr tt).

Notation "x <- m ;; k" := (bind m (fun x => k))
  (at level 100, m at next level, right associativity).
Notation "m ;;; k" := (bind m (fun _ => k))
  (at level 100, right associativity).

(** ** The methods of [wx.TextCtrl] that the control calls *)

(** [wx.TextCtrl.SetValue(self, t)]: the text is replaced and the toolkit
    places the caret. *)
Definition TextCtrl_SetValue (t : string) (c : FloatCtrl) : FloatCtrl :=
  let p := Nat.min (wx_caret_after_SetValue t) (len t) in
  set_tc t (p, p) c.

(** [self.SetSelection(from, to)]: positions past the end of the text are
    brought back to it. *)
Definition SetSelection (from to : nat) (c : FloatCtrl) : FloatCtrl :=
  set_tc (tc_value c)
         (Nat.min from (len (tc_value c)), Nat.min to (len (tc_value c))) c.

Definition Bell (c : FloatCtrl) : FloatCtrl := set_bells (S (bells c)) c.

(** ** The methods of [FloatCtrl] *)

(** [[
    def SetAction(self,action,action_kw={}):
        self.__action = closure()
        if callable(action):         self.__action.func = action
        if len(action_kw.keys())>0:  self.__action.kw = action_kw
]]
    [action] is [None] when the argument is not callable. *)
Definition SetAction (action : option callable) (action_kw : gmap string pyval)
    (c : FloatCtrl) : FloatCtrl :=
  let a := closure__init__ in
  set_action {| func := match action with Some f => Some f | None => func a end;
                kw := if (0 <? size action_kw)%nat then action_kw else kw a;
                args := args a |} c.

(** [[
    def SetPrecision(self,p):
        if p is None: p = 0
        self.__prec = p
        self.format = '%%.%if' % p
]] *)
Definition SetPrecision (p : option Z) (c : FloatCtrl) : FloatCtrl :=
  set_prec (match p with None => 0%Z | Some p => p end) c.

(** [[
    def __GetMark(self):
        try:
            self.__mark = min(wx.TextCtrl.GetSelection(self)[0],
                              len(wx.TextCtrl.GetValue(self).strip()))
        except:
            self.__mark = 0
]]
    The two getters of the widget do not raise in this model. *)
Definition __GetMark (c : FloatCtrl) : FloatCtrl :=
  set_mark (Nat.min (fst (tc_selection c)) (len (strip (tc_value c)))) c.

(** [[
    def __SetMark(self,m=None):
        if m==None: m = self.__mark
        self.SetSelection(m,m)
]] *)
Definition __SetMark (m : option nat) (c : FloatCtrl) : FloatCtrl :=
  let m := match m with None => __mark c | Some m => m end in
  SetSelection m m c.

(** [[
    def __Text_SetValue(self,value):
        wx.TextCtrl.SetValue(self, self.format % set_float(value))
        self.Refresh()
]]
    Formatting [None] with ['%.pf'] is a [TypeError]. *)
Definition __Text_SetValue (value : option float) : M unit :=
  c <- get ;;
  match set_float (pyval_of value) None with
  | None => raise TypeError
  | Some x => modify (TextCtrl_SetValue (py_format_fixed (format c) x))
  end.

(** [[
    def __CheckValid(self,value):
        v = self.__val
        try:
            self.__valid = True
            v = set_float(value)
            if self.__min != None and (v < self.__min):
                self.__valid = False
                v = self.__min
            if self.__max != None and (v > self.__max):
                self.__valid = False
                v = self.__max
        except:
            self.__valid = False
        self.__bound_val = v
        if self.__valid:
            self.__bound_val = self.__val = v
            self.SetForegroundColour(self.fgcol_valid)
            self.SetBackgroundColour(self.bgcol_valid)
        else:
            self.SetForegroundColour(self.fgcol_invalid)
            self.SetBackgroundColour(self.bgcol_invalid)
        self.Refresh()
]]
    On the values of [pyval] neither [set_float] nor a comparison raises:
    [set_float] itself catches the [ValueError] of [float] and returns
    [None], which Python 2 then compares with the bounds. *)
Definition __CheckValid (value : pyval) (c : FloatCtrl) : FloatCtrl :=
  let valid0 := true in
  let v0 := set_float value None in
  let '(valid1, v1) :=
    if negb (is_PyNone (pyval_of (__min c))) && py_lt v0 (__min c)
    then (false, __min c) else (valid0, v0) in
  let '(valid2, v2) :=
    if negb (is_PyNone (pyval_of (__max c))) && py_gt v1 (__max c)
    then (false, __max c) else (valid1, v1) in
  let c := set_bound_val v2 (set_valid valid2 c) in
  if valid2
  then set_colours fgcol_valid bgcol_valid (set_val v2 (set_bound_val v2 c))
  else set_colours fgcol_invalid bgcol_invalid c.

(** [[
    def __call__(self,  *args, **kw):
        self.kw.update(kw)
        if (self.func == None): return None
        self.args = args
        return apply(self.func,self.args,self.kw)
]]
    [self.__action(value=v)]: the closure is called with no positional
    argument and the one keyword [value]. *)
Definition closure__call__ (value : option float) (c : FloatCtrl) : FloatCtrl :=
  let a := __action c in
  let kw' := <["value" := pyval_of value]> (kw a) in
  match func a with
  | None => set_action {| func := None; kw := kw'; args := args a |} c
  | Some f =>
      set_calls (calls c ++ [{| call_func := f; call_args := []; call_kw := kw' |}])
        (set_action {| func := Some f; kw := kw'; args := [] |} c)
  end.

(** [[
    def SetValue(self,value=None,act=True):
        if value == None: value = wx.TextCtrl.GetValue(self).strip()
        self.__CheckValid(value)
        self.__GetMark()
        if self.__valid:
            self.__Text_SetValue(self.__val)
            self.SetForegroundColour(self.fgcol_valid)
            self.SetBackgroundColour(self.bgcol_valid)
            if  callable(self.__action) and act:  self.__action(value=self.__val)
        else:
            self.__val = self.__bound_val
            self.__Text_SetValue(self.__val)
            self.__CheckValid(self.__val)
            self.SetForegroundColour(self.fgcol_invalid)
            self.SetBackgroundColour(self.bgcol_invalid)
            wx.Bell()
        self.__SetMark()
]]
    [self.__action] is always a [closure], an instance with [__call__], so
    [callable(self.__action)] is true. *)
Definition SetValue (value : pyval) (act : bool) : M unit :=
  c <- get ;;
  let value := if is_PyNone value then PyStr (strip (tc_value c)) else value in
  modify (__CheckValid value) ;;;
  modify __GetMark ;;;
  c <- get ;;
  (if __valid c then
     __Text_SetValue (__val c) ;;;
     modify (set_colours fgcol_valid bgcol_valid) ;;;
     c <- get ;;
     if act then modify (closure__call__ (__val c)) else ret tt
   else
     modify (fun c => set_val (__bound_val c) c) ;;;
     c <- get ;;
     __Text_SetValue (__val c) ;;;
     c <- get ;;
     modify (__CheckValid (pyval_of (__val c))) ;;;
     modify (set_colours fgcol_invalid bgcol_invalid) ;;;
     modify Bell) ;;;
  modify (__SetMark None).

(** [[
    def onKillFocus(self, event):
        self.__GetMark()
        event.Skip()

    def onSetFocus(self, event=None):
        self.__SetMark()
        if event: event.Skip()
]] *)
Definition onKillFocus (c : FloatCtrl) : FloatCtrl := __GetMark c.
Definition onSetFocus (c : FloatCtrl) : FloatCtrl := __SetMark None c.

(** [[
    def onChar(self, event):
        key   = event.GetKeyCode()
        entry = wx.TextCtrl.GetValue(self).strip()
        pos   = wx.TextCtrl.GetSelection(self)
        if (key == wx.WXK_RETURN):
            self.SetValue(entry)
            return
        if (key < wx.WXK_SPACE or key == wx.WXK_DELETE or key > 255):
            event.Skip()
            return
        has_minus = '-' in entry
        ckey = chr(key)
        if ((ckey == '.' and (self.__prec == 0 or '.' in entry) ) or
            (ckey == '-' and (has_minus or  pos[0] != 0)) or
            (ckey != '-' and  has_minus and pos[0] == 0)):
            return
        if (chr(key) in self.__digits):
            event.Skip()
            return
        return
]]
    The result tells whether [event.Skip()] was called, that is whether the
    toolkit goes on to process the key: for a character, whether it is
    inserted in the text. *)
Definition onChar (key : Z) : M bool :=
  c <- get ;;
  let entry := strip (tc_value c) in
  let pos := tc_selection c in
  if (key =? WXK_RETURN)%Z then
    SetValue (PyStr entry) true ;;; ret false
  else if (key <? WXK_SPACE)%Z || (key =? WXK_DELETE)%Z || (255 <? key)%Z then
    ret true
  else
    let has_minus := py_in "-" entry in
    let ckey := chr key in
    if (Ascii.eqb ckey "." && ((__prec c =? 0)%Z || py_in "." entry))
       || (Ascii.eqb ckey "-" && (has_minus || negb (fst pos =? 0)%nat))
       || (negb (Ascii.eqb ckey "-") && has_minus && (fst pos =? 0)%nat)
    then ret false
    else if py_in (chr key) __digits then ret true
    else ret false.

(** [[
    def onText(self, event=None):
        try:
            if event.GetString() != '':
                self.__CheckValid(event.GetString())
        except:
            pass
        event.Skip()
]]
    [s] is [event.GetString()]. *)
Definition onText (s : string) (c : FloatCtrl) : FloatCtrl :=
  if negb (String.eqb s EmptyString) then __CheckValid (PyStr s) c else c.

(** What [GetValue] returns: an [int], a [float] or [None]. *)
Inductive pynum : Type :=
  | NumInt (z : Z)
  | NumFloat (x : float)
  | NumNone.

(** [[
    def GetValue(self):
        if self.__prec > 0:
            return set_float(fpformat.fix(self.__val, self.__prec))
        else:
            return int(self.__val)
]] *)
Definition GetValue (c : FloatCtrl) : exn + pynum :=
  if (0 <? __prec c)%Z then
    match set_float (PyStr (fpformat_fix (__val c) (__prec c))) None with
    | Some x => inr (NumFloat x)
    | None => inr NumNone
    end
  else
    match py_int (__val c) with
    | inl e => inl e
    | inr z => inr (NumInt z)
    end.

(** [[
    def GetMin(self):  return self.__min
    def GetMax(self):  return self.__max
    def SetMin(self,min): self.__min = set_float(min)
    def SetMax(self,max): self.__max = set_float(max)
]] *)
Definition GetMin (c : FloatCtrl) : option float := __min c.
Definition GetMax (c : FloatCtrl) : option float := __max c.
Definition SetMin (min : pyval) (c : FloatCtrl) : FloatCtrl :=
  set_min (set_float min None) c.
Definition SetMax (max : pyval) (c : FloatCtrl) : FloatCtrl :=
  set_max (set_float max None) c.

(** [[
    def __init__(self, parent, value='', min='', max='',
                 action=None,  precision=3, action_kw={}, **kwargs):
        self.__digits = '0123456789.-'
        self.__prec   = precision
        if precision is None: self.__prec = 0
        self.format   = '%%.%if' % self.__prec
        self.__val = set_float(value)
        self.__max = set_float(max)
        self.__min = set_float(min)
        ...
        self.__action = closure()
        if callable(action):  self.__action.func = action
        if len(action_kw.keys())>0:  self.__action.kw = action_kw
        ...
        wx.TextCtrl.__init__(self, parent, wx.ID_ANY, **kw)
        self.__CheckValid(self.__val)
        self.SetValue(self.__val)
        ...
        self.__GetMark()
]]
    The new widget has an empty text.  [__valid], [__bound_val] and [__mark]
    do not exist before [__CheckValid] and [__GetMark] assign them; the
    record holds [false], [None] and [0] until then. *)
Definition blank (value min max : pyval) (action : option callable)
    (precision : option Z) (action_kw : gmap string pyval) : FloatCtrl :=
  let p := match precision with None => 0%Z | Some p => p end in
  {| tc_value := EmptyString; tc_selection := (0, 0)%nat;
     fg_colour := SystemDefault; bg_colour := SystemDefault;
     __prec := p; format := p;
     __val := set_float value None;
     __max := set_float max None;
     __min := set_float min None;
     __valid := false; __bound_val := None; __mark := 0%nat;
     __action := {| func := match action with
                            | Some f => Some f
                            | None => func closure__init__
                            end;
                    kw := if (0 <? size action_kw)%nat then action_kw
                          else kw closure__init__;
                    args := args closure__init__ |};
     bells := 0%nat; calls := [] |}.

Definition __init__ (value min max : pyval) (action : option callable)
    (precision : option Z) (action_kw : gmap string pyval)
    : FloatCtrl * (exn + unit) :=
  (c <- get ;;
   modify (__CheckValid (pyval_of (__val c))) ;;;
   c <- get ;;
   SetValue (pyval_of (__val c)) true ;;;
   modify __GetMark)
  (blank value min max action precision action_kw).

End Model.

(** ** A concrete environment for the worked examples

    Decimal literals [[-]ddd[.ddd]] are read with correct rounding to
    binary64, and a float is printed in fixed point from its exact value,
    rounded half to even.  The theorems do not depend on it: they hold for
    every [PyEnv]. *)

Definition digit_of (c : ascii) : option Z :=
  let n := N_of_ascii c in
  if ((48 <=? n) && (n <=? 57))%N then Some (Z.of_N n - 48)%Z else None.

(** Reads the digits at the front of [s]: the number read after [acc], how
    many digits, and the rest. *)
Fixpoint read_digits (s : string) (acc : Z) (n : nat) : Z * nat * string :=
  match s with
  | EmptyString => (acc, n, s)
  | String c s' =>
      match digit_of c with
      | Some d => read_digits s' (10 * acc + d)%Z (S n)
      | None => (acc, n, s)
      end
  end.

(** The float nearest to [m / 10^k], ties to even: the quotient is computed
    with more than 55 bits and a sticky bit. *)
Definition decimal_to_float (neg : bool) (m : Z) (k : nat) : float :=
  if (m =? 0)%Z then S754_zero neg
  else
    let d := (10 ^ Z.of_nat k)%Z in
    let sh := (56 + Z.log2 d)%Z in
    let n := Z.shiftl m sh in
    let q := (n / d)%Z in
    let sticky := if (n mod d =? 0)%Z then 0%Z else 1%Z in
    let r := binary_normalize prec64 emax64 (2 * q + sticky) (- (sh + 1)) false in
    if neg then SFopp r else r.

Definition demo_float (s : string) : option float :=
  let s := strip s in
  let '(neg, s) :=
    match s with
    | String "-" r => (true, r)
    | String "+" r => (false, r)
    | _ => (false, s)
    end in
  let '(i, ni, s) := read_digits s 0 0 in
  let '(m, nf, s) :=
    match s with
    | String "." r => read_digits r i 0
    | _ => (i, 0%nat, s)
    end in
  if (ni + nf =? 0)%nat then None
  else match s with
       | EmptyString => Some (decimal_to_float neg m nf)
       | _ => None
       end.

(** [num / den] rounded to the nearest integer, ties to even. *)
Definition round_half_even (num den : Z) : Z :=
  let q := (num / den)%Z in
  let r := (num mod den)%Z in
  match (2 * r ?= den)%Z with
  | Lt => q
  | Gt => (q + 1)%Z
  | Eq => if Z.even q then q else (q + 1)%Z
  end.

Fixpoint zeros (n : nat) : string :=
  match n with
  | O => EmptyString
  | S n => String "0" (zeros n)
  end.

(** The digits of [n >= 0] with a point before the last [p] of them. *)
Definition fixed_digits (n : Z) (p : nat) : string :=
  let ds := pretty n in
  let ds := zeros (S p - String.length ds) +:+ ds in
  let i := (String.length ds - p)%nat in
  match p with
  | O => ds
  | _ => substring 0 i ds +:+ "." +:+ substring i p ds
  end.

Definition demo_format (p : Z) (x : float) : string :=
  let p := Z.to_nat p in
  match x with
  | S754_nan => "nan"
  | S754_infinity s => if s then "-inf" else "inf"
  | S754_zero s => (if s then "-" else EmptyString) +:+ fixed_digits 0 p
  | S754_finite s m e =>
      let scaled := (Zpos m * 10 ^ Z.of_nat p)%Z in
      let n := if (0 <=? e)%Z then Z.shiftl scaled e
               else round_half_even scaled (2 ^ (- e)) in
      (if s then "-" else EmptyString) +:+ fixed_digits n p
  end.

(** [fpformat.fix] is taken here as the fixed-point print of the float, and
    the text [None] for [None]. *)
Definition demo_fix (x : option float) (digs : Z) : string :=
  match x with
  | None => "None"
  | Some x => demo_format digs x
  end.

Definition demo_env : PyEnv :=
  {| py_float := demo_float;
     py_format_fixed := demo_format;
     fpformat_fix := demo_fix;
     wx_caret_after_SetValue := fun _ => 0%nat |}.

(** ** The predicates of the statements *)

(** [lo <= x <= hi], an unset bound being no bound. *)
Definition in_range (lo : option float) (x : float) (hi : option float) : bool :=
  match lo with None => true | Some m => float_le m x end
  && match hi with None => true | Some m => float_le x m end.

(** [v < lo] with [lo] set, [v > hi] with [hi] set: the two tests of
    [__CheckValid], in the order of Python 2. *)
Definition below (v lo : option float) : bool :=
  negb (is_PyNone (pyval_of lo)) && py_lt v lo.

Definition above (v hi : option float) : bool :=
  negb (is_PyNone (pyval_of hi)) && py_gt v hi.

(** The stored value is neither below [min] nor above [max].  [None] is
    below every number, so a control without a value is within its bounds
    only when [min] is unset. *)
Definition lies_within (c : FloatCtrl) : bool :=
  negb (below (__val c) (__min c)) && negb (above (__val c) (__max c)).

(** The invariant of the data model: [isValid] if and only if the value is
    within the bounds. *)
Definition valid_iff_within (c : FloatCtrl) : Prop :=
  __valid c = true <-> lies_within c = true.

(** Its forward half. *)
Definition valid_implies_within (c : FloatCtrl) : Prop :=
  __valid c = true -> lies_within c = true.

(** [min <= max] when both are set. *)
Definition bounds_ordered (c : FloatCtrl) : Prop :=
  match __min c, __max c with
  | Some lo, Some hi => float_le lo hi = true
  | _, _ => True
  end.

(** A key code that [onChar] filters as a character. *)
Definition printable (key : Z) : Prop :=
  (WXK_SPACE <= key <= 255)%Z /\ key <> WXK_DELETE.

Definition key_dot : Z := 46.
Definition key_minus : Z := 45.

(** The candidate that [SetValue] validates: the stripped text of the
    widget when the argument is [None]. *)
Definition candidate (value : pyval) (c : FloatCtrl) : pyval :=
  if is_PyNone value then PyStr (strip (tc_value c)) else value.

(** The flag and the bounded value that [__CheckValid] computes from the
    parsed candidate. *)
Definition checked (lo hi v0 : option float) : bool * option float :=
  let '(valid1, v1) := if below v0 lo then (false, lo) else (true, v0) in
  if above v1 hi then (false, hi) else (valid1, v1).

(** The call that a commit of [v] makes to the registered function [f]:
    no positional argument, and the fixed keywords with [value]. *)
Definition commit_call (c : FloatCtrl) (f : callable) (v : float) : call :=
  {| call_func := f; call_args := [];
     call_kw := <["value" := PyFloat v]> (kw (__action c)) |}.

(** The validity of [c'] is that of [c]: same flag, value and bounds. *)
Definition same_validity (c c' : FloatCtrl) : Prop :=
  __valid c' = __valid c /\ __val c' = __val c /\
  __min c' = __min c /\ __max c' = __max c.

(** When [onChar] rejects a typed point. *)
Definition rejects_dot (c : FloatCtrl) : Prop :=
  __prec c = 0%Z \/ py_in "." (tc_value c) = true \/
  (py_in "-" (tc_value c) = true /\ fst (tc_selection c) = 0%nat).

(** When [onChar] accepts a typed minus sign. *)
Definition accepts_minus (c : FloatCtrl) : Prop :=
  fst (tc_selection c) = 0%nat /\ py_in "-" (tc_value c) = false.

(** The caret that [__GetMark] records. *)
Definition recorded_caret (c : FloatCtrl) : nat :=
  Nat.min (fst (tc_selection c)) (len (strip (tc_value c))).

(** *** The sentences of the specification that the code does not follow,
    as they are written *)

(** An out-of-range commit leaves the control flagged invalid, with the
    violated bound [b] as value and no call of the action. *)
Definition clamped_and_flagged_invalid `{PyEnv}
    (c : FloatCtrl) (text : string) (b : float) : Prop :=
  let c' := fst (SetValue (PyStr text) true c) in
  __valid c' = false /\ __val c' = Some b /\ calls c' = calls c.

(** A typed point is rejected exactly when the precision is 0 or the text
    has a point. *)
Definition dot_rejected_iff_prec0_or_dot `{PyEnv} (c : FloatCtrl) : Prop :=
  snd (onChar key_dot c) = inr false <->
  (__prec c = 0%Z \/ py_in "." (tc_value c) = true).

(** Handling a change of the text that is not a commit leaves the value and
    the validity as they are. *)
Definition no_revalidation_outside_commit `{PyEnv} (s : string) (c : FloatCtrl) : Prop :=
  __val (onText s c) = __val c /\ __valid (onText s c) = __valid c.

(** ** Controls for the worked examples *)

(** The user edits the text of the widget and moves the caret. *)
Definition user_edit (t : string) (caret : nat) (c : FloatCtrl) : FloatCtrl :=
  set_tc t (caret, caret) c.

(** [FloatCtrl(parent, value='50.00', min='0', max='100', action=put,
    precision=2)] *)
Definition ctrl_0_100 : FloatCtrl :=
  fst (__init__ (H := demo_env) (PyStr "50.00") (PyStr "0") (PyStr "100")
         (Some "put") (Some 2%Z) ∅).

(** [FloatCtrl(parent, value='5', action=put, precision=0)]: no bounds. *)
Definition ctrl_free : FloatCtrl :=
  fst (__init__ (H := demo_env) (PyStr "5") (PyStr EmptyString) (PyStr EmptyString)
         (Some "put") (Some 0%Z) ∅).

(** [FloatCtrl(parent, value='-5', precision=3)] after the user has replaced
    the text by [-5] and put the caret in front of it. *)
Definition ctrl_minus5 : FloatCtrl :=
  user_edit "-5" 0
    (fst (__init__ (H := demo_env) (PyStr "-5") (PyStr EmptyString) (PyStr EmptyString)
            None (Some 3%Z) ∅)).

(** ** [closure], with any arguments *)

(** [closure(func, *args, **kw)] *)
Definition closure_new (f : option callable) (a : list pyval)
    (k : gmap string pyval) : closure :=
  {| func := f; kw := k; args := a |}.

(** [[
    def __call__(self,  *args, **kw):
        self.kw.update(kw)
        if (self.func == None): return None
        self.args = args
        return apply(self.func,self.args,self.kw)
]]
    The closure after the call, and the call of [func] that was made, if
    any.  [update] lets the keywords of the call override the stored
    ones. *)
Definition closure_call (a : closure) (args' : list pyval)
    (kw' : gmap string pyval) : closure * option call :=
  let kw1 := kw' ∪ kw a in
  match func a with
  | None => ({| func := None; kw := kw1; args := args a |}, None)
  | Some f =>
      ({| func := Some f; kw := kw1; args := args' |},
       Some {| call_func := f; call_args := args'; call_kw := kw1 |})
  end.

(** ** Typing in the widget *)

(** [s[:n]] and [s[n:]] *)
Fixpoint str_take (n : nat) (s : string) : string :=
  match n, s with
  | S n', String ch s' => String ch (str_take n' s')
  | _, _ => EmptyString
  end.

Fixpoint str_drop (n : nat) (s : string) : string :=
  match n, s with
  | S n', String _ s' => str_drop n' s'
  | _, _ => s
  end.

(** The text of the widget once the toolkit has put the typed character in
    the place of the selection: the caret when the selection is empty. *)
Definition typed (ch : ascii) (c : FloatCtrl) : string :=
  str_take (fst (tc_selection c)) (tc_value c)
  +:+ String ch (str_drop (snd (tc_selection c)) (tc_value c)).

Fixpoint count_char (ch : ascii) (s : string) : nat :=
  match s with
  | EmptyString => 0%nat
  | String d s' => ((if Ascii.eqb ch d then 1 else 0) + count_char ch s')%nat
  end.

(** Every character of [s] is one of [alphabet]. *)
Fixpoint all_in (alphabet : string) (s : string) : bool :=
  match s with
  | EmptyString => true
  | String d s' => py_in d alphabet && all_in alphabet s'
  end.

Definition starts_with (ch : ascii) (s : string) : bool :=
  match s with
  | EmptyString => false
  | String d _ => Ascii.eqb ch d
  end.

(** The shape of a number being typed: digits, at most one point, at most
    one minus sign, and that one in front. *)
Definition numeric_shape (s : string) : bool :=
  all_in __digits s
  && (count_char "." s <=? 1)%nat
  && (count_char "-" s <=? 1)%nat
  && (negb (py_in "-" s) || starts_with "-" s).

(** A digit key. *)
Definition digit_key (key : Z) : Prop := (48 <= key <= 57)%Z.

(** A float that is a number, not an infinity. *)
Definition is_finite (x : float) : bool :=
  match x with
  | S754_zero _ | S754_finite _ _ _ => true
  | _ => false
  end.

(** ** The PV event of [pvCtrlMixin], and [pvFloatCtrl] *)

(** [x is None] *)
Definition is_none {A : Type} (o : option A) : bool :=
  match o with
  | None => true
  | Some _ => false
  end.

Section Callers.

Context `{PyEnv}.

(** [("%%.%if" % prec) % value]: a float is printed, anything else is a
    [TypeError]. *)
Definition format_value (prec : Z) (value : pyval) : M pyval :=
  match value with
  | PyFloat x => ret (PyStr (py_format_fixed prec x))
  | _ => raise TypeError
  end.

(** [[
    @DelayedEpicsCallback
    def _pvEvent(self,pvname=None,value=None,wid=None,char_value=None,**kw):
        if pvname is None or value is None or wid is None:  return
        if char_value is None and value is not None:
            prec = kw.get('precision',None)
            if prec not in (None,0):
                char_value = ("%%.%if" % prec) % value
            else:
                char_value = set_float(value)
        self._SetValue(char_value)
]]
    The body, as it runs when the toolkit makes the deferred call on a live
    widget.  [precision] is [kw.get('precision', None)], and [_SetValue] the
    method of the class that mixes [pvCtrlMixin] in. *)
Definition pvCtrlMixin_pvEvent (_SetValue : pyval -> M unit)
    (pvname : option string) (value : pyval) (wid : option Z)
    (char_value : pyval) (precision : option Z) : M unit :=
  if is_none pvname || is_PyNone value || is_none wid
  then ret tt
  else
    bind
      (if is_PyNone char_value && negb (is_PyNone value) then
         match precision with
         | Some p =>
             if negb (p =? 0)%Z then format_value p value
             else ret (pyval_of (set_float value None))
         | None => ret (pyval_of (set_float value None))
         end
       else ret char_value)
      (fun char_value => _SetValue char_value).

(** [[
class pvFloatCtrl(FloatCtrl,pvCtrlMixin):
    def _SetValue(self,value):
        self.SetValue(value)
]] *)
Definition pvFloatCtrl_SetValue (value : pyval) : M unit := SetValue value true.

(** [_pvEvent] is not overridden in [pvFloatCtrl]. *)
Definition pvFloatCtrl_pvEvent : option string -> pyval -> option Z ->
    pyval -> option Z -> M unit :=
  pvCtrlMixin_pvEvent pvFloatCtrl_SetValue.

End Callers.

(** ** The order of floats *)

Lemma SFltb_irrefl (x : float) : SFltb x x = false.
Proof.
  unfold SFltb.
  destruct x as [s | s | | s m e]; try destruct s; simpl; try reflexivity;
    rewrite Z.compare_refl; change (Pos.compare_cont Eq m m) with (m ?= m)%positive;
    rewrite Pos.compare_refl; reflexivity.
Qed.

(** [SFcompare] read through comparisons of integers. *)
Ltac order_cases :=
  repeat match goal with
  | |- context [ (?a ?= ?b)%Z ] => destruct (Z.compare_spec a b); subst
  | H : context [ (?a ?= ?b)%Z ] |- _ => destruct (Z.compare_spec a b); subst
  | |- context [ Pos.compare_cont Eq ?a ?b ] =>
      change (Pos.compare_cont Eq a b) with (a ?= b)%positive;
      destruct (Pos.compare_spec a b); subst
  | H : context [ Pos.compare_cont Eq ?a ?b ] |- _ =>
      change (Pos.compare_cont Eq a b) with (a ?= b)%positive in H;
      destruct (Pos.compare_spec a b); subst
  end;
  simpl in *; try reflexivity; try discriminate; try lia.

Lemma SFleb_not_ltb (x y : float) : SFleb x y = true -> SFltb y x = false.
Proof.
  unfold SFleb, SFltb.
  destruct x as [s | s | | s m e], y as [t | t | | t n f];
    try destruct s; try destruct t; simpl; try reflexivity; try discriminate;
    order_cases.
Qed.

Lemma SFleb_ltb_trans (x y z : float) :
  SFleb x y = true -> SFltb y z = true -> SFltb x z = true.
Proof.
  unfold SFleb, SFltb.
  destruct x as [s | s | | s m e], y as [t | t | | t n f], z as [u | u | | u k g];
    try destruct s; try destruct t; try destruct u;
    simpl; try reflexivity; try discriminate; order_cases.
Qed.

(** Away from NaN the order is total: not below is at least. *)
Lemma SFltb_negb_SFleb (x y : float) :
  is_nan x = false -> is_nan y = false -> negb (SFltb x y) = SFleb y x.
Proof.
  unfold SFleb, SFltb.
  destruct x as [s | s | | s m e], y as [t | t | | t n f];
    try destruct s; try destruct t; simpl; try reflexivity; try discriminate;
    intros _ _; order_cases.
Qed.

Lemma SFltb_asym (x y : float) : SFltb x y = true -> SFltb y x = false.
Proof.
  unfold SFltb.
  destruct x as [s | s | | s m e], y as [t | t | | t n f];
    try destruct s; try destruct t; simpl; try reflexivity; try discriminate;
    order_cases.
Qed.

(** ** Strings and key codes *)

Lemma py_in_lstrip (c : ascii) (s : string) :
  is_space c = false -> py_in c (lstrip s) = py_in c s.
Proof.
  intros Hc. induction s as [| d s IH]; simpl; [reflexivity |].
  destruct (is_space d) eqn:Hd; [| reflexivity].
  rewrite IH. destruct (Ascii.eqb_spec c d) as [-> | _]; [congruence | reflexivity].
Qed.

Lemma py_in_rstrip (c : ascii) (s : string) :
  is_space c = false -> py_in c (rstrip s) = py_in c s.
Proof.
  intros Hc. induction s as [| d s IH]; simpl; [reflexivity |].
  destruct (rstrip s) as [| e r] eqn:Hr.
  - simpl in IH. rewrite <- IH.
    destruct (is_space d) eqn:Hd; simpl; [| reflexivity].
    destruct (Ascii.eqb_spec c d) as [-> | _]; [congruence | reflexivity].
  - simpl. simpl in IH. rewrite IH. reflexivity.
Qed.

(** Stripping removes white space only. *)
Lemma py_in_strip (c : ascii) (s : string) :
  is_space c = false -> py_in c (strip s) = py_in c s.
Proof.
  intros Hc. unfold strip. rewrite py_in_rstrip, py_in_lstrip; auto.
Qed.

Lemma chr_eqb (key : Z) (n : N) :
  (0 <= key <= 255)%Z ->
  Ascii.eqb (chr key) (ascii_of_N n) = true -> (n < 256)%N -> key = Z.of_N n.
Proof.
  intros Hk He Hn. apply Ascii.eqb_eq in He. unfold chr in He.
  apply (f_equal N_of_ascii) in He.
  rewrite !N_ascii_embedding in He by lia. lia.
Qed.

Lemma chr_not_minus (key : Z) :
  (0 <= key <= 255)%Z -> key <> 45%Z -> Ascii.eqb (chr key) "-" = false.
Proof.
  intros Hk Hne. destruct (Ascii.eqb (chr key) "-") eqn:He; [| reflexivity].
  exfalso. apply Hne. apply (chr_eqb key 45 Hk He). reflexivity.
Qed.

(** ** The methods, step by step *)

Section Properties.

Context `{PyEnv}.

Lemma set_float_pyval_of (o : option float) : set_float (pyval_of o) None = o.
Proof. destruct o; reflexivity. Qed.

Lemma set_float_PyFloat (x : float) (d : option float) :
  set_float (PyFloat x) d = Some x.
Proof. reflexivity. Qed.

Lemma set_float_PyNone (d : option float) : set_float PyNone d = d.
Proof. reflexivity. Qed.

Lemma CheckValid_unfold (value : pyval) (c : FloatCtrl) :
  __CheckValid value c =
  let '(valid, v) := checked (__min c) (__max c) (set_float value None) in
  if valid
  then set_colours fgcol_valid bgcol_valid
         (set_val v (set_bound_val v (set_bound_val v (set_valid true c))))
  else set_colours fgcol_invalid bgcol_invalid
         (set_bound_val v (set_valid false c)).
Proof.
  unfold __CheckValid, checked, below, above.
  destruct (negb (is_PyNone (pyval_of (__min c))) && py_lt (set_float value None) (__min c));
    cbv zeta iota beta;
    match goal with
    | |- context [ negb (is_PyNone (pyval_of (__max c))) && ?g ] =>
        destruct (negb (is_PyNone (pyval_of (__max c))) && g)
    end; reflexivity.
Qed.

(** [__CheckValid] leaves the widget's text and caret, the bounds, the
    precision, the mark, the action and the logs as they are. *)
Lemma CheckValid_frame (value : pyval) (c : FloatCtrl) :
  let c' := __CheckValid value c in
  tc_value c' = tc_value c /\ tc_selection c' = tc_selection c /\
  __prec c' = __prec c /\ format c' = format c /\
  __min c' = __min c /\ __max c' = __max c /\ __mark c' = __mark c /\
  __action c' = __action c /\ bells c' = bells c /\ calls c' = calls c.
Proof.
  rewrite CheckValid_unfold.
  destruct (checked _ _ (set_float value None)) as [[] v]; cbn; repeat split.
Qed.

(** The flag, the value and the bounded value after [__CheckValid]. *)
Lemma CheckValid_result (value : pyval) (c : FloatCtrl) :
  let c' := __CheckValid value c in
  let r := checked (__min c) (__max c) (set_float value None) in
  __valid c' = fst r /\ __bound_val c' = snd r /\
  __val c' = (if fst r then snd r else __val c) /\
  fg_colour c' = (if fst r then fgcol_valid else fgcol_invalid) /\
  bg_colour c' = (if fst r then bgcol_valid else bgcol_invalid).
Proof.
  rewrite CheckValid_unfold.
  destruct (checked _ _ (set_float value None)) as [[] v]; cbn; repeat split.
Qed.

Ltac from_frame value c :=
  destruct (CheckValid_frame value c) as (? & ? & ? & ? & ? & ? & ? & ? & ? & ?);
  assumption.

Lemma CheckValid_tc_value value c : tc_value (__CheckValid value c) = tc_value c.
Proof. from_frame value c. Qed.
Lemma CheckValid_tc_selection value c :
  tc_selection (__CheckValid value c) = tc_selection c.
Proof. from_frame value c. Qed.
Lemma CheckValid_prec value c : __prec (__CheckValid value c) = __prec c.
Proof. from_frame value c. Qed.
Lemma CheckValid_format value c : format (__CheckValid value c) = format c.
Proof. from_frame value c. Qed.
Lemma CheckValid_min value c : __min (__CheckValid value c) = __min c.
Proof. from_frame value c. Qed.
Lemma CheckValid_max value c : __max (__CheckValid value c) = __max c.
Proof. from_frame value c. Qed.
Lemma CheckValid_mark value c : __mark (__CheckValid value c) = __mark c.
Proof. from_frame value c. Qed.
Lemma CheckValid_action value c : __action (__CheckValid value c) = __action c.
Proof. from_frame value c. Qed.
Lemma CheckValid_bells value c : bells (__CheckValid value c) = bells c.
Proof. from_frame value c. Qed.
Lemma CheckValid_calls value c : calls (__CheckValid value c) = calls c.
Proof. from_frame value c. Qed.

Lemma CheckValid_valid value c :
  __valid (__CheckValid value c) = fst (checked (__min c) (__max c) (set_float value None)).
Proof. apply CheckValid_result. Qed.
Lemma CheckValid_bound_val value c :
  __bound_val (__CheckValid value c)
  = snd (checked (__min c) (__max c) (set_float value None)).
Proof. apply CheckValid_result. Qed.
Lemma CheckValid_val value c :
  __val (__CheckValid value c)
  = if fst (checked (__min c) (__max c) (set_float value None))
    then snd (checked (__min c) (__max c) (set_float value None)) else __val c.
Proof. apply CheckValid_result. Qed.
Lemma CheckValid_fg value c :
  fg_colour (__CheckValid value c)
  = if fst (checked (__min c) (__max c) (set_float value None))
    then fgcol_valid else fgcol_invalid.
Proof. apply CheckValid_result. Qed.
Lemma CheckValid_bg value c :
  bg_colour (__CheckValid value c)
  = if fst (checked (__min c) (__max c) (set_float value None))
    then bgcol_valid else bgcol_invalid.
Proof. apply CheckValid_result. Qed.

Create Rewrite HintDb ctrl.
#[local] Hint Rewrite CheckValid_tc_value CheckValid_tc_selection CheckValid_prec
  CheckValid_format CheckValid_min CheckValid_max CheckValid_mark
  CheckValid_action CheckValid_bells CheckValid_calls CheckValid_valid
  CheckValid_bound_val CheckValid_val CheckValid_fg CheckValid_bg
  set_float_PyFloat set_float_PyNone set_float_pyval_of : ctrl.

(** Reduces the projections of a state built by the methods. *)
Ltac fields :=
  repeat (cbn -[__CheckValid checked set_float]; autorewrite with ctrl).

Lemma SetValue_unfold (value : pyval) (act : bool) (c : FloatCtrl) :
  SetValue value act c =
  let c1 := __GetMark (__CheckValid (candidate value c) c) in
  if __valid c1 then
    match __val c1 with
    | None => (c1, inl TypeError)
    | Some x =>
        let c2 := set_colours fgcol_valid bgcol_valid
                    (TextCtrl_SetValue (py_format_fixed (format c1) x) c1) in
        (__SetMark None (if act then closure__call__ (__val c2) c2 else c2), inr tt)
    end
  else
    let c2 := set_val (__bound_val c1) c1 in
    match __val c2 with
    | None => (c2, inl TypeError)
    | Some x =>
        let c3 := TextCtrl_SetValue (py_format_fixed (format c2) x) c2 in
        (__SetMark None
           (Bell (set_colours fgcol_invalid bgcol_invalid
                    (__CheckValid (pyval_of (__val c3)) c3))), inr tt)
    end.
Proof.
  unfold SetValue, candidate, bind, get, modify, ret, raise, __Text_SetValue.
  cbv zeta.
  destruct (__valid (__GetMark (__CheckValid _ c))) eqn:Hv.
  - rewrite set_float_pyval_of.
    destruct (__val (__GetMark (__CheckValid _ c))) as [x |]; [| reflexivity].
    destruct act; reflexivity.
  - rewrite set_float_pyval_of.
    destruct (__val (set_val _ _)) as [x |]; reflexivity.
Qed.

(** *** What [checked] gives *)

Lemma checked_within (lo hi v0 : option float) :
  below v0 lo = false -> above v0 hi = false -> checked lo hi v0 = (true, v0).
Proof. unfold checked. intros -> ->. reflexivity. Qed.

Lemma in_range_below (lo hi : option float) (v : float) :
  in_range lo v hi = true -> below (Some v) lo = false.
Proof.
  unfold in_range, below, float_le. intros Hr. apply andb_prop in Hr as [Hlo _].
  destruct lo as [m |]; [| reflexivity]. simpl. apply SFleb_not_ltb, Hlo.
Qed.

Lemma in_range_above (lo hi : option float) (v : float) :
  in_range lo v hi = true -> above (Some v) hi = false.
Proof.
  unfold in_range, above, float_le. intros Hr. apply andb_prop in Hr as [_ Hhi].
  destruct hi as [m |]; [| reflexivity]. simpl. apply SFleb_not_ltb, Hhi.
Qed.

Lemma checked_in_range (lo hi : option float) (v : float) :
  in_range lo v hi = true -> checked lo hi (Some v) = (true, Some v).
Proof.
  intros Hr. apply checked_within; [eapply in_range_below | eapply in_range_above]; eauto.
Qed.

(** A bound passes the check when the bounds are ordered. *)
Lemma min_not_above (m : float) (hi : option float) :
  match hi with Some M => float_le m M = true | None => True end ->
  above (Some m) hi = false.
Proof.
  unfold above, float_le. destruct hi as [M |]; [| reflexivity].
  intros Hle. simpl. apply SFleb_not_ltb, Hle.
Qed.

Lemma max_not_below (lo : option float) (M : float) :
  match lo with Some m => float_le m M = true | None => True end ->
  below (Some M) lo = false.
Proof.
  unfold below, float_le. destruct lo as [m |]; [| reflexivity].
  intros Hle. simpl. apply SFleb_not_ltb, Hle.
Qed.

Lemma bound_not_below_itself (m : float) : below (Some m) (Some m) = false.
Proof. unfold below. simpl. apply SFltb_irrefl. Qed.

Lemma bound_not_above_itself (m : float) : above (Some m) (Some m) = false.
Proof. unfold above, py_gt. simpl. apply SFltb_irrefl. Qed.

Lemma checked_below_min (m v : float) (hi : option float) :
  SFltb v m = true ->
  match hi with Some M => float_le m M = true | None => True end ->
  checked (Some m) hi (Some v) = (false, Some m).
Proof.
  intros Hlt Hord. unfold checked.
  replace (below (Some v) (Some m)) with true by (unfold below; simpl; congruence).
  rewrite (min_not_above m hi Hord). reflexivity.
Qed.

Lemma checked_above_max (lo : option float) (M v : float) :
  SFltb M v = true ->
  match lo with Some m => float_le m M = true | None => True end ->
  checked lo (Some M) (Some v) = (false, Some M).
Proof.
  intros Hlt Hord. unfold checked.
  replace (below (Some v) lo) with false.
  - replace (above (Some v) (Some M)) with true
      by (unfold above, py_gt; simpl; congruence).
    reflexivity.
  - unfold below. destruct lo as [m |]; [| reflexivity]. simpl.
    symmetry. apply SFltb_asym. eapply SFleb_ltb_trans; eauto.
Qed.

(** *** Properties of the control *)



(** *** Candidates that are not numbers *)

Lemma checked_no_number_no_min (hi : option float) :
  checked None hi None = (true, None).
Proof. unfold checked, below, above, py_gt. destruct hi; reflexivity. Qed.

(** No number and no lower bound: [__CheckValid] accepts [None] as the
    value, and formatting it raises. *)
Lemma SetValue_no_number_no_min (value : pyval) (act : bool) (c : FloatCtrl) :
  set_float (candidate value c) None = None ->
  __min c = None ->
  exists c',
    SetValue value act c = (c', inl TypeError) /\
    __valid c' = true /\ __val c' = None /\
    tc_value c' = tc_value c /\ calls c' = calls c.
Proof.
  intros Hparse Hmin. rewrite SetValue_unfold. cbv zeta.
  fields. rewrite Hparse, Hmin, checked_no_number_no_min. fields.
  eexists. split; [reflexivity |].
  fields. rewrite ?Hparse, ?Hmin, ?checked_no_number_no_min. fields.
  repeat split; reflexivity.
Qed.

(** No number and a lower bound: the value becomes [min], whatever it
    was. *)
Lemma SetValue_no_number_min (value : pyval) (act : bool) (c : FloatCtrl) (m : float) :
  set_float (candidate value c) None = None ->
  __min c = Some m ->
  bounds_ordered c ->
  exists c',
    SetValue value act c = (c', inr tt) /\ __val c' = Some m /\
    calls c' = calls c.
Proof.
  intros Hparse Hmin Hord. unfold bounds_ordered in Hord. rewrite Hmin in Hord.
  assert (Hfirst : checked (Some m) (__max c) None = (false, Some m)).
  { unfold checked. change (below None (Some m)) with true. cbv iota.
    rewrite min_not_above; [reflexivity |]. destruct (__max c); exact Hord. }
  assert (Hsecond : checked (Some m) (__max c) (Some m) = (true, Some m)).
  { apply checked_within; [apply bound_not_below_itself |].
    apply min_not_above. destruct (__max c); exact Hord. }
  rewrite SetValue_unfold. cbv zeta.
  fields. rewrite Hparse, Hmin, Hfirst. fields.
  eexists. split; [reflexivity |].
  fields. rewrite ?Hparse, ?Hmin, ?Hfirst. fields. rewrite ?Hmin, ?Hsecond. fields.
  repeat split; reflexivity.
Qed.

(** *** The invariant *)

Lemma checked_true (lo hi v0 : option float) :
  fst (checked lo hi v0) = true ->
  checked lo hi v0 = (true, v0) /\ below v0 lo = false /\ above v0 hi = false.
Proof.
  unfold checked. destruct (below v0 lo); [destruct (above lo hi); discriminate |].
  destruct (above v0 hi); [discriminate |]. auto.
Qed.

Lemma checked_false (lo hi v0 : option float) :
  fst (checked lo hi v0) = false -> below v0 lo = true \/ above v0 hi = true.
Proof.
  unfold checked. destruct (below v0 lo); [auto |].
  destruct (above v0 hi); [auto | discriminate].
Qed.

(** A clamped value is a bound that is set. *)
Lemma checked_false_bound (lo hi v0 : option float) :
  fst (checked lo hi v0) = false -> exists x, snd (checked lo hi v0) = Some x.
Proof.
  unfold checked, below, above.
  destruct lo as [m |], hi as [M |]; simpl;
    repeat match goal with
    | |- context [ if ?b then _ else _ ] => destruct b; simpl
    end; intros; try discriminate; eauto.
Qed.

(** For a stored float and bounds that are not NaN, [lies_within] is
    [min <= value <= max]. *)
Lemma lies_within_in_range (c : FloatCtrl) (x : float) :
  __val c = Some x -> is_nan x = false ->
  match __min c with Some m => is_nan m = false | None => True end ->
  match __max c with Some m => is_nan m = false | None => True end ->
  lies_within c = in_range (__min c) x (__max c).
Proof.
  unfold lies_within, in_range, below, above, py_gt, float_le.
  intros -> Hx Hlo Hhi.
  destruct (__min c) as [m |], (__max c) as [n |]; simpl;
    rewrite ?SFltb_negb_SFleb by assumption; reflexivity.
Qed.

Lemma same_validity_invariant (c c' : FloatCtrl) :
  same_validity c c' -> valid_iff_within c -> valid_iff_within c'.
Proof.
  unfold same_validity, valid_iff_within, lies_within.
  intros (-> & -> & -> & ->). auto.
Qed.

(** When [__CheckValid] says valid, the value it stores is within the
    bounds. *)
Lemma CheckValid_valid_within (value : pyval) (c : FloatCtrl) :
  __valid (__CheckValid value c) = true -> lies_within (__CheckValid value c) = true.
Proof.
  unfold lies_within. autorewrite with ctrl. intros Hv.
  destruct (checked_true _ _ _ Hv) as (Hc & Hlo & Hhi).
  rewrite Hc. simpl. rewrite Hlo, Hhi. reflexivity.
Qed.

(** Checking the stored value itself makes the flag say whether it is
    within the bounds. *)
Lemma CheckValid_own_value (c : FloatCtrl) :
  valid_iff_within (__CheckValid (pyval_of (__val c)) c).
Proof.
  unfold valid_iff_within, lies_within. autorewrite with ctrl.
  destruct (fst (checked (__min c) (__max c) (__val c))) eqn:Hv.
  - destruct (checked_true _ _ _ Hv) as (Hc & Hlo & Hhi).
    rewrite Hc. simpl. rewrite Hlo, Hhi. split; reflexivity.
  - destruct (checked_false _ _ _ Hv) as [Hb | Ha]; rewrite ?Hb, ?Ha;
      [| rewrite andb_false_r]; split; discriminate.
Qed.

Lemma SetValue_invariant (value : pyval) (act : bool) (c : FloatCtrl) :
  valid_iff_within (fst (SetValue value act c)).
Proof.
  rewrite SetValue_unfold. cbv zeta.
  set (c1 := __CheckValid (candidate value c) c).
  change (__valid (__GetMark c1)) with (__valid c1).
  change (__val (__GetMark c1)) with (__val c1).
  destruct (__valid c1) eqn:Hv.
  - assert (Hin : valid_iff_within c1).
    { unfold valid_iff_within. rewrite Hv.
      split; [intros _; apply CheckValid_valid_within, Hv | reflexivity]. }
    destruct (__val c1) as [x |] eqn:Hx; simpl fst.
    + eapply same_validity_invariant; [| exact Hin].
      unfold same_validity, closure__call__.
      destruct act; [destruct (func _) |]; repeat split; reflexivity.
    + eapply same_validity_invariant; [| exact Hin]. repeat split; reflexivity.
  - change (__val (set_val ?v ?c)) with v.
    change (__bound_val (__GetMark c1)) with (__bound_val c1).
    assert (Hb : exists x, __bound_val c1 = Some x).
    { unfold c1 in *. rewrite CheckValid_valid in Hv. rewrite CheckValid_bound_val.
      apply checked_false_bound, Hv. }
    destruct Hb as [x Hx]. rewrite Hx. simpl fst.
    match goal with
    | |- valid_iff_within (__SetMark None (Bell (set_colours _ _ (__CheckValid ?v ?d)))) =>
        eapply (same_validity_invariant (__CheckValid v d));
        [repeat split; reflexivity | apply CheckValid_own_value]
    end.
Qed.

Lemma init_unfold (value min max : pyval) (action : option callable)
    (precision : option Z) (action_kw : gmap string pyval) :
  __init__ value min max action precision action_kw =
  let c0 := blank value min max action precision action_kw in
  let c1 := __CheckValid (pyval_of (__val c0)) c0 in
  match SetValue (pyval_of (__val c1)) true c1 with
  | (c2, inl e) => (c2, inl e)
  | (c2, inr _) => (__GetMark c2, inr tt)
  end.
Proof.
  unfold __init__, bind, get, modify. cbv zeta.
  destruct (SetValue _ true _) as [c2 [e | []]]; reflexivity.
Qed.

(** Keys other than Return: [onChar] decides and changes nothing. *)
Lemma onChar_filter (key : Z) (c : FloatCtrl) :
  key <> WXK_RETURN -> exists skip, onChar key c = (c, inr skip).
Proof.
  intros Hk. unfold onChar, bind, get, ret.
  destruct (Z.eqb_spec key WXK_RETURN) as [-> | _]; [contradiction |].
  repeat match goal with
  | |- context [ if ?b then _ else _ ] => destruct b
  end; eauto.
Qed.

Lemma onChar_return (c : FloatCtrl) :
  fst (onChar WXK_RETURN c) = fst (SetValue (PyStr (strip (tc_value c))) true c).
Proof.
  unfold onChar, bind, get, ret. simpl.
  destruct (SetValue _ true c) as [c' [e | []]]; reflexivity.
Qed.


(** *** The keystroke filter *)

(** What [onChar] does with a typed point. *)
Lemma onChar_dot_unfold (c : FloatCtrl) :
  onChar key_dot c =
  (c, inr (negb ((__prec c =? 0)%Z || py_in "." (tc_value c)
                 || (py_in "-" (tc_value c) && (fst (tc_selection c) =? 0)%nat)))).
Proof.
  unfold onChar, bind, get, ret. simpl.
  rewrite !py_in_strip by reflexivity.
  destruct (__prec c =? 0)%Z, (py_in "." (tc_value c)), (py_in "-" (tc_value c)),
    (fst (tc_selection c) =? 0)%nat; reflexivity.
Qed.

(** What [onChar] does with a typed minus sign. *)
Lemma onChar_minus_unfold (c : FloatCtrl) :
  onChar key_minus c =
  (c, inr ((fst (tc_selection c) =? 0)%nat && negb (py_in "-" (tc_value c)))).
Proof.
  unfold onChar, bind, get, ret. simpl.
  rewrite !py_in_strip by reflexivity.
  destruct (py_in "-" (tc_value c)), (fst (tc_selection c) =? 0)%nat; reflexivity.
Qed.

(** C5, as the code has it.  [onChar] rejects a typed point exactly when the
    precision is 0, or the text has a point, or the text has a minus sign
    and the caret is at position 0; otherwise the point is accepted.  The
    control is unchanged either way. *)
Theorem onChar_dot (c : FloatCtrl) :
  fst (onChar key_dot c) = c /\
  (snd (onChar key_dot c) = inr false <-> rejects_dot c) /\
  (snd (onChar key_dot c) = inr true <-> ~ rejects_dot c).
Proof.
  rewrite onChar_dot_unfold. unfold rejects_dot. simpl.
  destruct (Z.eqb_spec (__prec c) 0) as [Hp | Hp];
    destruct (py_in "." (tc_value c)), (py_in "-" (tc_value c));
    destruct (Nat.eqb_spec (fst (tc_selection c)) 0) as [Hs | Hs]; simpl;
    (split; [reflexivity |]);
    split; split; intros Hx; try discriminate; try reflexivity;
    try (exfalso; tauto); try tauto;
    try (intros [? | [? | [? ?]]]; congruence);
    try (exfalso; destruct Hx as [? | [? | [? ?]]]; congruence).
Qed.

(** C6.  [onChar] accepts a typed minus sign if and only if the caret is at
    position 0 and the text has no minus sign, and rejects it otherwise; a
    character other than the minus sign, typed at position 0 when the text
    has a minus sign, is rejected. *)
Theorem onChar_minus_sign (c : FloatCtrl) :
  (snd (onChar key_minus c) = inr true <-> accepts_minus c) /\
  (snd (onChar key_minus c) = inr false <-> ~ accepts_minus c) /\
  (forall key,
     printable key -> key <> key_minus ->
     py_in "-" (tc_value c) = true -> fst (tc_selection c) = 0%nat ->
     onChar key c = (c, inr false)).
Proof.
  split; [| split].
  - rewrite onChar_minus_unfold. unfold accepts_minus. simpl.
    destruct (Nat.eqb_spec (fst (tc_selection c)) 0) as [Hs | Hs];
      destruct (py_in "-" (tc_value c)); simpl; split;
      intros Hx; try discriminate; try reflexivity; try tauto;
      destruct Hx; congruence.
  - rewrite onChar_minus_unfold. unfold accepts_minus. simpl.
    destruct (Nat.eqb_spec (fst (tc_selection c)) 0) as [Hs | Hs];
      destruct (py_in "-" (tc_value c)); simpl; split;
      intros Hx; try discriminate; try reflexivity; try tauto;
      try (intros [? ?]; congruence); exfalso; apply Hx; auto.
  - intros key [[Hlo Hhi] Hdel] Hne Hminus Hcaret.
    unfold WXK_SPACE, WXK_DELETE, key_minus in *.
    unfold onChar, bind, get, ret, WXK_RETURN, WXK_SPACE, WXK_DELETE.
    destruct (Z.eqb_spec key 13); [lia |].
    destruct (Z.ltb_spec key 32); [lia |].
    destruct (Z.eqb_spec key 127); [lia |].
    destruct (Z.ltb_spec 255 key); [lia |].
    simpl orb. cbv iota.
    rewrite !py_in_strip by reflexivity.
    rewrite Hminus, Hcaret, chr_not_minus by lia.
    simpl. rewrite !orb_true_r. reflexivity.
Qed.

(** C7, as the code has it.  For a key other than Return, [onChar] returns
    without an exception and leaves the whole control as it is: value,
    validity, bounds, text and the log of calls.  [onText] calls no action
    and leaves the text, the bounds and the bell alone, but when the new
    text is not empty it is [__CheckValid] on the whole text, which sets
    the flag and, when valid, the value. *)
Theorem filtering_frame :
  (forall key c, key <> WXK_RETURN -> exists skip, onChar key c = (c, inr skip)) /\
  (forall s c,
     calls (onText s c) = calls c /\ __min (onText s c) = __min c /\
     __max (onText s c) = __max c /\ tc_value (onText s c) = tc_value c /\
     bells (onText s c) = bells c) /\
  (forall s c, s <> EmptyString -> onText s c = __CheckValid (PyStr s) c).
Proof.
  split; [| split].
  - apply onChar_filter.
  - intros s c. unfold onText.
    destruct (negb (String.eqb s EmptyString)); autorewrite with ctrl; auto.
  - intros s c Hs. unfold onText.
    destruct (String.eqb_spec s EmptyString); [contradiction | reflexivity].
Qed.

(** *** The caret *)

(** C9.  When [SetValue] returns, on the valid and on the invalid path, the
    caret is the position that [__GetMark] recorded before the text was
    replaced, brought back to the length of the new text, wherever the
    toolkit had put it.  When [SetValue] raises, text and caret are
    untouched. *)
Theorem SetValue_restores_caret (value : pyval) (act : bool) (c : FloatCtrl) :
  let c' := fst (SetValue value act c) in
  match snd (SetValue value act c) with
  | inr _ =>
      __mark c' = recorded_caret c /\
      tc_selection c' = (Nat.min (recorded_caret c) (len (tc_value c')),
                         Nat.min (recorded_caret c) (len (tc_value c')))
  | inl _ => tc_value c' = tc_value c /\ tc_selection c' = tc_selection c
  end.
Proof.
  rewrite SetValue_unfold. cbv zeta. unfold recorded_caret.
  set (c1 := __CheckValid (candidate value c) c).
  change (__valid (__GetMark c1)) with (__valid c1).
  change (__val (__GetMark c1)) with (__val c1).
  destruct (__valid c1).
  - destruct (__val c1) as [x |]; simpl fst; simpl snd.
    + unfold closure__call__.
      destruct act; [destruct (func _) |]; subst c1; fields; split; reflexivity.
    + subst c1. fields. split; reflexivity.
  - change (__val (set_val ?v ?d)) with v.
    destruct (__bound_val (__GetMark c1)) as [x |]; simpl fst; simpl snd;
      subst c1; fields; split; reflexivity.
Qed.

(** *** [GetValue] *)

(** C10.  With no stored value and precision 0, [GetValue] raises
    [TypeError]: it is [int(None)]. *)
Theorem GetValue_None_raises (c : FloatCtrl) :
  __val c = None -> __prec c = 0%Z -> GetValue c = inl TypeError.
Proof.
  intros Hv Hp. unfold GetValue. rewrite Hp, Hv. reflexivity.
Qed.

(** ** More of the control *)

(** *** More on the order of floats *)

Lemma SFltb_leb_trans (x y z : float) :
  SFltb x y = true -> SFleb y z = true -> SFltb x z = true.
Proof.
  unfold SFleb, SFltb.
  destruct x as [s | s | | s m e], y as [t | t | | t n f], z as [u | u | | u k g];
    try destruct s; try destruct t; try destruct u;
    simpl; try reflexivity; try discriminate; order_cases.
Qed.

Lemma SFltb_not_nan (x y : float) :
  SFltb x y = true -> is_nan x = false /\ is_nan y = false.
Proof.
  unfold SFltb. destruct x as [s | s | | s m e], y as [t | t | | t n f];
    simpl; try discriminate; auto.
Qed.

Lemma checked_nan (lo hi : option float) (x : float) :
  is_nan x = true -> checked lo hi (Some x) = (true, Some x).
Proof.
  intros Hx. destruct x; try discriminate.
  apply checked_within; unfold below, above, py_gt;
    [destruct lo as [[] |] | destruct hi as [[] |]]; reflexivity.
Qed.

(** With [max < min], every number is clamped to [max], and [max] itself
    does not pass. *)
Lemma checked_inverted (m M v : float) :
  SFltb M m = true -> is_nan v = false ->
  checked (Some m) (Some M) (Some v) = (false, Some M).
Proof.
  intros Hinv Hv. destruct (SFltb_not_nan _ _ Hinv) as [_ Hm].
  unfold checked, below, above, py_gt. simpl.
  destruct (SFltb v m) eqn:Hlt; simpl.
  - rewrite Hinv. reflexivity.
  - assert (Hle : SFleb m v = true).
    { rewrite <- SFltb_negb_SFleb by assumption. rewrite Hlt. reflexivity. }
    rewrite (SFltb_leb_trans _ _ _ Hinv Hle). reflexivity.
Qed.

(** *** [SetValue]: exceptions, calls, display *)

(** When [__CheckValid] rejects the candidate, the bounded value is a bound
    that is set. *)
Lemma checked_rejected (lo hi v0 : option float) :
  fst (checked lo hi v0) = false ->
  exists b, checked lo hi v0 = (false, Some b).
Proof.
  intros Hf. destruct (checked_false_bound _ _ _ Hf) as [b Hb].
  exists b. destruct (checked lo hi v0) as [ok w]. simpl in *. congruence.
Qed.

Lemma checked_accepted (lo hi v0 : option float) :
  fst (checked lo hi v0) = true -> checked lo hi v0 = (true, v0).
Proof. intros Ht. apply checked_true, Ht. Qed.



(** X3.  When [SetValue] returns, a number is stored and the text of the
    widget is that number printed with the format of the control; bounds,
    precision and format are never changed, whether it returns or not. *)
Theorem SetValue_text_is_value (value : pyval) (act : bool) (c : FloatCtrl) :
  let c' := fst (SetValue value act c) in
  (snd (SetValue value act c) = inr tt ->
   exists x, __val c' = Some x /\ tc_value c' = py_format_fixed (format c') x) /\
  __min c' = __min c /\ __max c' = __max c /\
  __prec c' = __prec c /\ format c' = format c.
Proof.
  rewrite SetValue_unfold. cbv zeta. fields.
  destruct (fst (checked (__min c) (__max c) (set_float (candidate value c) None)))
    eqn:Hok.
  - rewrite (checked_accepted _ _ _ Hok). fields.
    destruct (set_float (candidate value c) None) as [x |] eqn:Hx; fields.
    + unfold closure__call__. fields.
      destruct act; [destruct (func (__action c)) eqn:Hf |];
        repeat (fields; rewrite ?Hf, ?Hx, ?Hok, ?(checked_accepted _ _ _ Hok));
        (split; [intros _; exists x; split; reflexivity | repeat split; reflexivity]).
    + split; [discriminate | repeat split; reflexivity].
  - destruct (checked_rejected _ _ _ Hok) as [b Hb]. rewrite Hb. fields.
    split; [| repeat split; reflexivity].
    intros _. exists b. split; [| reflexivity].
    destruct (fst (checked (__min c) (__max c) (Some b))) eqn:Hb2;
      [rewrite (checked_accepted _ _ _ Hb2) |]; reflexivity.
Qed.

(** With ordered bounds a set bound passes the check. *)
Lemma checked_bound_ordered (lo hi v0 : option float) (b : float) :
  match lo, hi with
  | Some m, Some M => float_le m M = true
  | _, _ => True
  end ->
  checked lo hi v0 = (false, Some b) ->
  checked lo hi (Some b) = (true, Some b).
Proof.
  intros Hord Hc. apply checked_within.
  - unfold checked in Hc.
    destruct (below v0 lo) eqn:Hb1.
    + destruct lo as [m |]; [| discriminate].
      destruct (above (Some m) hi) eqn:Ha.
      * injection Hc as <-. destruct hi as [M |]; [| discriminate].
        apply max_not_below. exact Hord.
      * injection Hc as <-. apply bound_not_below_itself.
    + destruct (above v0 hi) eqn:Ha; [| discriminate].
      injection Hc as Hhi. rewrite Hhi in *.
      apply max_not_below. destruct lo; exact Hord.
  - unfold checked in Hc.
    destruct (below v0 lo) eqn:Hb1.
    + destruct lo as [m |]; [| discriminate].
      destruct (above (Some m) hi) eqn:Ha.
      * injection Hc as Hhi. rewrite Hhi. apply bound_not_above_itself.
      * injection Hc as <-. exact Ha.
    + destruct (above v0 hi) eqn:Ha; [| discriminate].
      injection Hc as Hhi. rewrite Hhi. apply bound_not_above_itself.
Qed.


(** X5.  With [max < min], a candidate that denotes a number is always
    rejected: [SetValue] stores [max], rings the bell, calls no action, and
    leaves the control flagged invalid. *)
Theorem SetValue_inverted_bounds (value : pyval) (act : bool) (c : FloatCtrl)
    (lo hi v : float) :
  __min c = Some lo -> __max c = Some hi -> float_lt hi lo = true ->
  set_float (candidate value c) None = Some v -> is_nan v = false ->
  exists c',
    SetValue value act c = (c', inr tt) /\
    __val c' = Some hi /\ __valid c' = false /\
    tc_value c' = py_format_fixed (format c) hi /\
    bells c' = S (bells c) /\ calls c' = calls c.
Proof.
  intros Hlo Hhi Hinv Hparse Hv.
  assert (Hhin : is_nan hi = false) by apply (SFltb_not_nan _ _ Hinv).
  rewrite SetValue_unfold. cbv zeta.
  repeat (fields; rewrite ?Hparse, ?Hlo, ?Hhi, ?(checked_inverted lo hi v Hinv Hv)).
  eexists. split; [reflexivity |].
  repeat (fields;
          rewrite ?Hparse, ?Hlo, ?Hhi, ?(checked_inverted lo hi v Hinv Hv),
            ?(checked_inverted lo hi hi Hinv Hhin)).
  repeat split; reflexivity.
Qed.

(** X6.  The bell rings exactly when [__CheckValid] rejects the candidate,
    once, and the colours are then the invalid ones; when it accepts the
    candidate there is no bell and the colours are the valid ones. *)
Theorem SetValue_feedback (value : pyval) (act : bool) (c : FloatCtrl) :
  let ok := __valid (__CheckValid (candidate value c) c) in
  let c' := fst (SetValue value act c) in
  bells c' = (if ok then bells c else S (bells c)) /\
  fg_colour c' = (if ok then fgcol_valid else fgcol_invalid) /\
  bg_colour c' = (if ok then bgcol_valid else bgcol_invalid).
Proof.
  rewrite SetValue_unfold. cbv zeta. fields.
  destruct (fst (checked (__min c) (__max c) (set_float (candidate value c) None)))
    eqn:Hok.
  - rewrite (checked_accepted _ _ _ Hok). fields.
    destruct (set_float (candidate value c) None) as [x |] eqn:Hx.
    + unfold closure__call__. fields.
      destruct act; [destruct (func (__action c)) eqn:Hf |];
        repeat (fields; rewrite ?Hf, ?Hx, ?Hok); repeat split; reflexivity.
    + repeat (fields; rewrite ?Hx, ?Hok). repeat split; reflexivity.
  - destruct (checked_rejected _ _ _ Hok) as [b Hb]. rewrite Hb. fields.
    repeat split; reflexivity.
Qed.

(** X7.  A NaN is no number below or above anything: a candidate that
    denotes one is accepted whatever the bounds, stored, and passed to the
    action. *)
Theorem SetValue_nan_accepted (value : pyval) (c : FloatCtrl) (x : float) :
  set_float (candidate value c) None = Some x -> is_nan x = true ->
  exists c',
    SetValue value true c = (c', inr tt) /\
    __valid c' = true /\ __val c' = Some x /\
    bells c' = bells c /\
    (forall f, func (__action c) = Some f ->
               calls c' = (calls c ++ [commit_call c f x])%list).
Proof.
  intros Hparse Hx.
  rewrite SetValue_unfold. cbv zeta.
  repeat (fields; rewrite ?Hparse, ?(checked_nan _ _ _ Hx)).
  eexists. split; [reflexivity |].
  unfold closure__call__, commit_call. fields.
  destruct (func (__action c)) as [f |] eqn:Hf;
    repeat (fields; rewrite ?Hf, ?Hparse, ?(checked_nan _ _ _ Hx));
    repeat split; try discriminate.
  intros g Hg. injection Hg as <-. reflexivity.
Qed.

(** What an accepted commit leaves behind. *)
Lemma SetValue_accepted (value : pyval) (c : FloatCtrl) (v : float) :
  set_float (candidate value c) None = Some v ->
  checked (__min c) (__max c) (Some v) = (true, Some v) ->
  exists c',
    SetValue value true c = (c', inr tt) /\
    __val c' = Some v /\ __valid c' = true /\
    tc_value c' = py_format_fixed (format c) v /\
    __min c' = __min c /\ __max c' = __max c /\ format c' = format c /\
    bells c' = bells c /\
    func (__action c') = func (__action c) /\
    kw (__action c') = <["value" := PyFloat v]> (kw (__action c)) /\
    calls c' = (calls c ++ match func (__action c) with
                           | Some f => [commit_call c f v]
                           | None => []
                           end)%list.
Proof.
  intros Hparse Hck.
  rewrite SetValue_unfold. cbv zeta.
  repeat (fields; rewrite ?Hparse, ?Hck).
  eexists. split; [reflexivity |].
  unfold closure__call__, commit_call.
  destruct (func (__action c)) as [f |] eqn:Hf;
    repeat (fields; rewrite ?Hf, ?Hparse, ?Hck);
    rewrite ?app_nil_r; repeat split; reflexivity.
Qed.


(** *** More on the keystroke filter *)

(** X9.  The Return key is a commit of the text of the widget: [onChar]
    does what [SetValue()] without an argument does, exception included, and
    does not let the toolkit process the key. *)
Theorem onChar_return_commits (c : FloatCtrl) :
  onChar WXK_RETURN c
  = (fst (SetValue PyNone true c),
     match snd (SetValue PyNone true c) with
     | inl e => inl e
     | inr _ => inr false
     end).
Proof.
  assert (Hs : SetValue (PyStr (strip (tc_value c))) true c = SetValue PyNone true c)
    by (rewrite !SetValue_unfold; reflexivity).
  change (onChar WXK_RETURN c)
    with (bind (SetValue (PyStr (strip (tc_value c))) true) (fun _ => ret false) c).
  unfold bind, ret. rewrite Hs.
  destruct (SetValue PyNone true c) as [c' [e | []]]; reflexivity.
Qed.

Lemma digit_key_cases (key : Z) :
  digit_key key ->
  key = 48%Z \/ key = 49%Z \/ key = 50%Z \/ key = 51%Z \/ key = 52%Z \/
  key = 53%Z \/ key = 54%Z \/ key = 55%Z \/ key = 56%Z \/ key = 57%Z.
Proof. unfold digit_key. lia. Qed.

(** X10.  A digit is accepted unless it is typed at position 0 of a text
    that has a minus sign; the control is unchanged either way. *)
Theorem onChar_digit (key : Z) (c : FloatCtrl) :
  digit_key key ->
  onChar key c
  = (c, inr (negb (py_in "-" (tc_value c) && (fst (tc_selection c) =? 0)%nat))).
Proof.
  intros Hk. unfold onChar, bind, get, ret.
  rewrite !py_in_strip by reflexivity.
  destruct (digit_key_cases key Hk) as [-> | [-> | [-> | [-> | [-> | [-> | [-> | [-> | [-> | ->]]]]]]]]];
    simpl;
    destruct (py_in "-" (tc_value c)), (fst (tc_selection c) =? 0)%nat; reflexivity.
Qed.

(** X11.  Keys that are not characters (below the space, Delete, above
    255), Return apart, go to the toolkit untouched; a character that
    [onChar] accepts is a digit, the point or the minus sign, so every other
    character is refused. *)
Theorem onChar_alphabet (key : Z) (c : FloatCtrl) :
  (key <> WXK_RETURN -> ~ printable key -> onChar key c = (c, inr true)) /\
  (printable key -> snd (onChar key c) = inr true ->
   py_in (chr key) __digits = true) /\
  (printable key -> py_in (chr key) __digits = false ->
   onChar key c = (c, inr false)).
Proof.
  unfold printable, WXK_RETURN, WXK_SPACE, WXK_DELETE.
  split; [| split].
  - intros Hr Hnp. unfold onChar, bind, get, ret, WXK_RETURN, WXK_SPACE, WXK_DELETE.
    destruct (Z.eqb_spec key 13); [contradiction |].
    destruct (Z.ltb_spec key 32); [reflexivity |].
    destruct (Z.eqb_spec key 127); [reflexivity |].
    destruct (Z.ltb_spec 255 key); [reflexivity |].
    exfalso. apply Hnp. lia.
  - intros [Hrange Hdel].
    unfold onChar, bind, get, ret, WXK_RETURN, WXK_SPACE, WXK_DELETE.
    destruct (Z.eqb_spec key 13); [lia |].
    destruct (Z.ltb_spec key 32); [lia |].
    destruct (Z.eqb_spec key 127); [lia |].
    destruct (Z.ltb_spec 255 key); [lia |].
    simpl orb. cbv iota. intros Hacc.
    repeat match type of Hacc with
    | context [ if ?b then _ else _ ] => destruct b eqn:?
    end; simpl in Hacc; try discriminate; try reflexivity; try assumption.
  - intros [Hrange Hdel] Hno.
    unfold onChar, bind, get, ret, WXK_RETURN, WXK_SPACE, WXK_DELETE.
    destruct (Z.eqb_spec key 13); [lia |].
    destruct (Z.ltb_spec key 32); [lia |].
    destruct (Z.eqb_spec key 127); [lia |].
    destruct (Z.ltb_spec 255 key); [lia |].
    simpl orb. cbv iota.
    repeat match goal with
    | |- context [ if ?b then _ else _ ] => destruct b eqn:?
    end; try reflexivity; try (simpl in *; discriminate); congruence.
Qed.

(** *** Typing keeps the shape of a number *)

Lemma count_char_app (ch : ascii) (s t : string) :
  count_char ch (s +:+ t) = (count_char ch s + count_char ch t)%nat.
Proof. induction s as [| d s IH]; simpl; [reflexivity |]. rewrite IH. lia. Qed.

Lemma count_char_take_drop (ch : ascii) (s : string) (a b : nat) :
  (a <= b)%nat ->
  (count_char ch (str_take a s) + count_char ch (str_drop b s) <= count_char ch s)%nat.
Proof.
  revert a b. induction s as [| d s IH]; intros a b Hab.
  - destruct a, b; simpl; lia.
  - destruct a as [| a], b as [| b]; simpl; try lia.
    + specialize (IH 0%nat b ltac:(lia)). destruct s; simpl in *; lia.
    + specialize (IH a b ltac:(lia)). lia.
Qed.

Lemma count_char_zero (ch : ascii) (s : string) :
  py_in ch s = false <-> count_char ch s = 0%nat.
Proof.
  induction s as [| d s IH]; simpl; [tauto |].
  destruct (Ascii.eqb ch d); simpl; [split; [discriminate | lia] | exact IH].
Qed.

Lemma all_in_app (alphabet s t : string) :
  all_in alphabet (s +:+ t) = all_in alphabet s && all_in alphabet t.
Proof.
  induction s as [| d s IH]; simpl; [reflexivity |].
  rewrite IH, andb_assoc. reflexivity.
Qed.

Lemma all_in_take (alphabet s : string) (n : nat) :
  all_in alphabet s = true -> all_in alphabet (str_take n s) = true.
Proof.
  revert n. induction s as [| d s IH]; intros [| n] Hs; simpl in *; try reflexivity.
  apply andb_prop in Hs as [Hd Hs]. rewrite Hd. simpl. apply IH, Hs.
Qed.

Lemma all_in_drop (alphabet s : string) (n : nat) :
  all_in alphabet s = true -> all_in alphabet (str_drop n s) = true.
Proof.
  revert n. induction s as [| d s IH]; intros [| n] Hs; simpl in *; try assumption.
  apply andb_prop in Hs as [_ Hs]. apply IH, Hs.
Qed.

(** The text as typed into: its characters, and how many of each. *)
Lemma typed_all_in (ch : ascii) (c : FloatCtrl) :
  all_in __digits (tc_value c) = true -> py_in ch __digits = true ->
  all_in __digits (typed ch c) = true.
Proof.
  intros Hs Hch. unfold typed. rewrite all_in_app. cbn [all_in].
  rewrite Hch, all_in_take, all_in_drop by assumption. reflexivity.
Qed.

Lemma typed_count (ch d : ascii) (c : FloatCtrl) :
  (fst (tc_selection c) <= snd (tc_selection c))%nat ->
  (count_char d (typed ch c)
   <= (if Ascii.eqb d ch then 1 else 0) + count_char d (tc_value c))%nat.
Proof.
  intros Hsel. unfold typed. rewrite count_char_app. simpl.
  pose proof (count_char_take_drop d (tc_value c) _ _ Hsel). lia.
Qed.

Lemma starts_with_typed (ch d : ascii) (c : FloatCtrl) :
  starts_with d (tc_value c) = true -> fst (tc_selection c) <> 0%nat ->
  starts_with d (typed ch c) = true.
Proof.
  unfold typed. destruct (tc_value c) as [| e s]; [discriminate |].
  destruct (fst (tc_selection c)); [contradiction |]. simpl. auto.
Qed.

(** X12.  Typing keeps the shape of a number.  When the text is made of
    digits with at most one point and at most one minus sign, that one in
    front, and [onChar] accepts a character, the text with the character put
    in the place of the selection has that shape again; and with precision 0
    it has no point. *)
Theorem onChar_keeps_numeric_shape (key : Z) (c : FloatCtrl) :
  printable key ->
  (fst (tc_selection c) <= snd (tc_selection c))%nat ->
  numeric_shape (tc_value c) = true ->
  snd (onChar key c) = inr true ->
  numeric_shape (typed (chr key) c) = true /\
  (__prec c = 0%Z -> py_in "." (tc_value c) = false ->
   py_in "." (typed (chr key) c) = false).
Proof.
  intros [Hrange Hdel] Hsel Hshape.
  unfold WXK_SPACE, WXK_DELETE in *.
  unfold onChar, bind, get, ret, WXK_RETURN, WXK_SPACE, WXK_DELETE.
  destruct (Z.eqb_spec key 13); [lia |].
  destruct (Z.ltb_spec key 32); [lia |].
  destruct (Z.eqb_spec key 127); [lia |].
  destruct (Z.ltb_spec 255 key); [lia |].
  simpl orb. cbv iota. rewrite !py_in_strip by reflexivity.
  unfold numeric_shape in Hshape.
  apply andb_prop in Hshape as [Hshape Hfront].
  apply andb_prop in Hshape as [Hshape Hminus].
  apply andb_prop in Hshape as [Hall Hdot].
  apply Nat.leb_le in Hminus, Hdot.
  remember (chr key) as ch eqn:Hch.
  destruct (Ascii.eqb ch "." && ((__prec c =? 0)%Z || py_in "." (tc_value c))
            || Ascii.eqb ch "-"
               && (py_in "-" (tc_value c) || negb (fst (tc_selection c) =? 0)%nat)
            || negb (Ascii.eqb ch "-") && py_in "-" (tc_value c)
               && (fst (tc_selection c) =? 0)%nat) eqn:Hrej;
    [discriminate |].
  destruct (py_in ch __digits) eqn:Hdig; [intros _ | discriminate].
  apply orb_false_elim in Hrej as [Hrej Hr3].
  apply orb_false_elim in Hrej as [Hr1 Hr2].
  pose proof (typed_count ch "." c Hsel) as Hcd.
  pose proof (typed_count ch "-" c Hsel) as Hcm.
  assert (Hnodot : Ascii.eqb ch "." = true -> count_char "." (tc_value c) = 0%nat).
  { intros He. rewrite He in Hr1. simpl in Hr1.
    apply orb_false_elim in Hr1 as [_ Hr1]. apply count_char_zero, Hr1. }
  assert (Hnominus : Ascii.eqb ch "-" = true ->
                     count_char "-" (tc_value c) = 0%nat /\
                     fst (tc_selection c) = 0%nat).
  { intros He. rewrite He in Hr2. simpl in Hr2.
    apply orb_false_elim in Hr2 as [Hr2 Hr2'].
    apply negb_false_iff, Nat.eqb_eq in Hr2'.
    split; [apply count_char_zero, Hr2 | exact Hr2']. }
  split.
  - unfold numeric_shape.
    rewrite (typed_all_in ch c Hall Hdig). simpl andb.
    assert (Hd1 : (count_char "." (typed ch c) <=? 1)%nat = true).
    { apply Nat.leb_le. rewrite (Ascii.eqb_sym "." ch) in Hcd.
      destruct (Ascii.eqb ch ".") eqn:He; [rewrite (Hnodot eq_refl) in Hcd |]; lia. }
    assert (Hm1 : (count_char "-" (typed ch c) <=? 1)%nat = true).
    { apply Nat.leb_le. rewrite (Ascii.eqb_sym "-" ch) in Hcm.
      destruct (Ascii.eqb ch "-") eqn:He;
        [rewrite (proj1 (Hnominus eq_refl)) in Hcm |]; lia. }
    rewrite Hd1, Hm1. simpl andb.
    destruct (Ascii.eqb ch "-") eqn:He.
    + destruct (Hnominus eq_refl) as [_ Hzero].
      apply Ascii.eqb_eq in He. unfold typed. rewrite Hzero, He. reflexivity.
    + simpl in Hr3.
      destruct (py_in "-" (tc_value c)) eqn:Hhas.
      * simpl in Hfront, Hr3. apply Nat.eqb_neq in Hr3.
        rewrite (starts_with_typed ch "-" c Hfront Hr3). apply orb_true_r.
      * apply count_char_zero in Hhas. rewrite Hhas in Hcm.
        rewrite (Ascii.eqb_sym "-" ch), He in Hcm.
        assert (Hz : count_char "-" (typed ch c) = 0%nat) by lia.
        apply count_char_zero in Hz. rewrite Hz. reflexivity.
  - intros Hp Hno. apply count_char_zero. apply count_char_zero in Hno.
    rewrite Hno in Hcd. rewrite (Ascii.eqb_sym "." ch) in Hcd.
    destruct (Ascii.eqb ch ".") eqn:He; [| lia].
    rewrite Hp in Hr1. discriminate.
Qed.

(** *** The caret and the focus *)

Lemma lstrip_length (s : string) : (len (lstrip s) <= len s)%nat.
Proof.
  unfold len. induction s as [| d s IH]; simpl; [lia |].
  destruct (is_space d); simpl; lia.
Qed.

Lemma rstrip_length (s : string) : (len (rstrip s) <= len s)%nat.
Proof.
  unfold len. induction s as [| d s IH]; simpl; [lia |].
  destruct (rstrip s); [destruct (is_space d) |]; simpl in *; lia.
Qed.

Lemma strip_length (s : string) : (len (strip s) <= len s)%nat.
Proof.
  unfold strip. pose proof (rstrip_length (lstrip s)). pose proof (lstrip_length s). lia.
Qed.

(** X13.  Losing the focus and getting it back leaves the text alone and
    puts the caret where the selection began, or at the end of the stripped
    text if that comes first; the selection is collapsed to the caret. *)
Theorem focus_round_trip (c : FloatCtrl) :
  let c' := onSetFocus (onKillFocus c) in
  tc_value c' = tc_value c /\
  tc_selection c' = (recorded_caret c, recorded_caret c) /\
  ((fst (tc_selection c) <= len (strip (tc_value c)))%nat ->
   tc_selection c' = (fst (tc_selection c), fst (tc_selection c))).
Proof.
  cbv zeta. unfold onSetFocus, onKillFocus, __SetMark, __GetMark, SetSelection,
    recorded_caret. cbn.
  pose proof (strip_length (tc_value c)) as Hs. unfold len in *.
  split; [reflexivity |]. split.
  - f_equal; lia.
  - intros Hle. f_equal; lia.
Qed.

(** *** [GetValue] in full *)

(** X14.  With a positive precision [GetValue] never raises: it returns a
    float, or [None].  Otherwise it is [int] of the stored value: an
    integer for a finite number, [TypeError] for no value, [ValueError] for
    a NaN and [OverflowError] for an infinity. *)
Theorem GetValue_outcomes (c : FloatCtrl) :
  ((0 < __prec c)%Z ->
   GetValue c = inr NumNone \/ exists x, GetValue c = inr (NumFloat x)) /\
  ((__prec c <= 0)%Z ->
   match __val c with
   | None => GetValue c = inl TypeError
   | Some x =>
       if is_finite x then exists z, GetValue c = inr (NumInt z)
       else if is_nan x then GetValue c = inl ValueError
       else GetValue c = inl OverflowError
   end).
Proof.
  unfold GetValue. split; intros Hp.
  - destruct (Z.ltb_spec 0 (__prec c)); [| lia].
    destruct (set_float _ None) as [x |]; eauto.
  - destruct (Z.ltb_spec 0 (__prec c)); [lia |].
    destruct (__val c) as [[s | s | | s m e] |]; simpl; eauto.
Qed.

(** *** Construction *)

Lemma size_zero_empty (m : gmap string pyval) :
  (if (0 <? size m)%nat then m else ∅) = m.
Proof.
  destruct (Nat.ltb_spec 0 (size m)) as [_ | Hs]; [reflexivity |].
  symmetry. apply map_size_empty_iff. lia.
Qed.

(** The caret after an accepted commit. *)
Lemma SetValue_accepted_caret (value : pyval) (c : FloatCtrl) (v : float) :
  set_float (candidate value c) None = Some v ->
  checked (__min c) (__max c) (Some v) = (true, Some v) ->
  let c' := fst (SetValue value true c) in
  __mark c' = recorded_caret c /\
  tc_selection c' = (Nat.min (recorded_caret c) (len (tc_value c')),
                     Nat.min (recorded_caret c) (len (tc_value c'))) /\
  fg_colour c' = fgcol_valid /\ bg_colour c' = bgcol_valid.
Proof.
  intros Hparse Hck.
  rewrite SetValue_unfold. cbv zeta. unfold recorded_caret.
  repeat (fields; rewrite ?Hparse, ?Hck).
  unfold closure__call__.
  destruct (func (__action c)) as [f |] eqn:Hf;
    repeat (fields; rewrite ?Hf, ?Hparse, ?Hck); repeat split; reflexivity.
Qed.

(** What a rejected commit leaves behind. *)
Lemma SetValue_rejected (value : pyval) (act : bool) (c : FloatCtrl) (b : float) :
  checked (__min c) (__max c) (set_float (candidate value c) None) = (false, Some b) ->
  exists c',
    SetValue value act c = (c', inr tt) /\
    __val c' = Some b /\
    __valid c' = fst (checked (__min c) (__max c) (Some b)) /\
    tc_value c' = py_format_fixed (format c) b /\
    __mark c' = recorded_caret c /\
    tc_selection c' = (Nat.min (recorded_caret c) (len (tc_value c')),
                       Nat.min (recorded_caret c) (len (tc_value c'))) /\
    fg_colour c' = fgcol_invalid /\ bg_colour c' = bgcol_invalid /\
    bells c' = S (bells c) /\ calls c' = calls c /\
    __action c' = __action c.
Proof.
  intros Hck.
  rewrite SetValue_unfold. cbv zeta. unfold recorded_caret.
  repeat (fields; rewrite ?Hck).
  eexists. split; [reflexivity |].
  repeat (fields; rewrite ?Hck).
  destruct (fst (checked (__min c) (__max c) (Some b))) eqn:Hb2;
    [rewrite ?(checked_accepted _ _ _ Hb2) |]; repeat split; reflexivity.
Qed.



(** *** [closure] *)

(** The call that [FloatCtrl] makes is [self.__action(value=v)]. *)
Lemma closure__call__is_closure_call (value : option float) (c : FloatCtrl) :
  let r := closure_call (__action c) [] {["value" := pyval_of value]} in
  __action (closure__call__ value c) = fst r /\
  calls (closure__call__ value c)
  = (calls c ++ match snd r with Some x => [x] | None => [] end)%list.
Proof.
  unfold closure__call__, closure_call. cbv zeta.
  rewrite <- insert_union_singleton_l.
  destruct (func (__action c)); cbn; rewrite ?app_nil_r; split; reflexivity.
Qed.

(** X17.  Keywords stick to a closure.  Of two calls in a row, the second
    passes its own positional arguments, nothing of what was given before,
    and for each keyword the value of the second call, else that of the
    first call, else the one the closure was made with. *)
Theorem closure_keywords_persist (f : callable) (a0 args1 args2 : list pyval)
    (kw0 kw1 kw2 : gmap string pyval) :
  let a1 := fst (closure_call (closure_new (Some f) a0 kw0) args1 kw1) in
  exists k,
    snd (closure_call a1 args2 kw2)
    = Some {| call_func := f; call_args := args2; call_kw := k |} /\
    forall key,
      k !! key = match kw2 !! key with
                 | Some v => Some v
                 | None => match kw1 !! key with
                           | Some v => Some v
                           | None => kw0 !! key
                           end
                 end.
Proof.
  cbv zeta. unfold closure_call, closure_new. cbn.
  eexists. split; [reflexivity |].
  intros key. rewrite !lookup_union.
  destruct (kw2 !! key), (kw1 !! key), (kw0 !! key); reflexivity.
Qed.

(** *** [SetAction] *)


(** *** The PV event *)



(** *** The check, on numbers *)

Lemma checked_number (lo hi : option float) (v : float) :
  is_nan v = false ->
  match lo with Some m => is_nan m = false | None => True end ->
  match hi with Some m => is_nan m = false | None => True end ->
  fst (checked lo hi (Some v)) = in_range lo v hi.
Proof.
  intros Hv Hlo Hhi. unfold checked, in_range, below, above, py_gt, float_le.
  destruct lo as [m |]; simpl.
  - rewrite <- (SFltb_negb_SFleb v m Hv Hlo).
    destruct (SFltb v m); simpl.
    + destruct hi as [M |]; simpl; [destruct (SFltb M m) |]; reflexivity.
    + destruct hi as [M |]; simpl; [| reflexivity].
      rewrite <- (SFltb_negb_SFleb M v Hhi Hv).
      destruct (SFltb M v); reflexivity.
  - destruct hi as [M |]; simpl; [| reflexivity].
    rewrite <- (SFltb_negb_SFleb M v Hhi Hv).
    destruct (SFltb M v); reflexivity.
Qed.

(** X21.  On numbers the two strict comparisons of [__CheckValid] are the
    interval test: for a text that denotes a float, no NaN among it and the
    bounds, [onText] flags the control valid exactly when
    [min <= v <= max]; it then stores [v], and otherwise keeps the value it
    had. *)
Theorem onText_valid_iff_in_range (s : string) (c : FloatCtrl) (v : float) :
  set_float (PyStr s) None = Some v ->
  is_nan v = false ->
  match __min c with Some m => is_nan m = false | None => True end ->
  match __max c with Some m => is_nan m = false | None => True end ->
  __valid (onText s c) = in_range (__min c) v (__max c) /\
  __val (onText s c)
  = (if in_range (__min c) v (__max c) then Some v else __val c).
Proof.
  intros Hparse Hv Hlo Hhi.
  assert (Hs : s <> EmptyString) by (intros ->; discriminate Hparse).
  unfold onText. destruct (String.eqb_spec s EmptyString); [contradiction |].
  simpl negb. cbv iota. autorewrite with ctrl. rewrite Hparse.
  rewrite (checked_number _ _ _ Hv Hlo Hhi).
  split; [reflexivity |].
  destruct (in_range (__min c) v (__max c)) eqn:Hr; [| reflexivity].
  rewrite (checked_in_range _ _ _ Hr). reflexivity.
Qed.

End Properties.

(** ** The worked examples *)

Section Examples.

#[local] Existing Instance demo_env.




(** C3 on the text [abc], which is no number.  Without a lower bound
    [SetValue] raises [TypeError] and leaves the control flagged valid with
    no value; with the bounds 0 and 100 and the value 50 it returns, and the
    value is [min], not the previous 50.  The empty text fares the same. *)
Theorem SetValue_unparsable_text :
  set_float (PyStr "abc") None = None /\
  (exists c',
     SetValue (PyStr "abc") true ctrl_free = (c', inl TypeError) /\
     __valid c' = true /\ __val c' = None) /\
  (exists c',
     SetValue (PyStr EmptyString) true ctrl_free = (c', inl TypeError) /\
     __valid c' = true /\ __val c' = None) /\
  (exists c',
     SetValue (PyStr "abc") true ctrl_0_100 = (c', inr tt) /\
     __val ctrl_0_100 = Some (float_of_Z 50) /\
     __val c' = Some (float_of_Z 0)).
Proof.
  split; [vm_compute; reflexivity |].
  split; [| split].
  - destruct (SetValue_no_number_no_min (PyStr "abc") true ctrl_free)
      as (c' & Hs & Hv & Hx & _); [vm_compute; reflexivity .. |].
    exists c'. auto.
  - destruct (SetValue_no_number_no_min (PyStr EmptyString) true ctrl_free)
      as (c' & Hs & Hv & Hx & _); [vm_compute; reflexivity .. |].
    exists c'. auto.
  - destruct (SetValue_no_number_min (PyStr "abc") true ctrl_0_100 (float_of_Z 0))
      as (c' & Hs & Hx & _); [vm_compute; reflexivity .. |].
    exists c'. split; [exact Hs |]. split; [vm_compute; reflexivity | exact Hx].
Qed.



(** C5: precision 3, the text [-5] has no point, the caret is in front of the
    minus sign, and the point is rejected. *)
Lemma onChar_dot_counterexample :
  __prec ctrl_minus5 = 3%Z /\
  py_in "." (tc_value ctrl_minus5) = false /\
  snd (onChar key_dot ctrl_minus5) = inr false /\
  ~ dot_rejected_iff_prec0_or_dot ctrl_minus5.
Proof.
  split; [vm_compute; reflexivity |].
  split; [vm_compute; reflexivity |].
  split; [vm_compute; reflexivity |].
  intros [Hf _]. specialize (Hf ltac:(vm_compute; reflexivity)).
  destruct Hf as [Hp | Hd]; vm_compute in *; discriminate.
Qed.

Lemma onChar_dot_witness :
  rejects_dot ctrl_minus5 /\ snd (onChar key_dot ctrl_minus5) = inr false.
Proof.
  assert (Hr : rejects_dot ctrl_minus5)
    by (right; right; split; vm_compute; reflexivity).
  split; [exact Hr |].
  apply (proj2 (proj1 (proj2 (onChar_dot ctrl_minus5))) Hr).
Defined.

(** C6: a digit typed in front of the minus sign of [-5] is rejected. *)
Lemma onChar_minus_sign_witness :
  printable 53 /\ 53%Z <> key_minus /\
  py_in "-" (tc_value ctrl_minus5) = true /\
  fst (tc_selection ctrl_minus5) = 0%nat /\
  onChar 53 ctrl_minus5 = (ctrl_minus5, inr false).
Proof.
  assert (Hp : printable 53) by (unfold printable, WXK_SPACE, WXK_DELETE; lia).
  assert (Hn : 53%Z <> key_minus) by (unfold key_minus; lia).
  assert (Hm : py_in "-" (tc_value ctrl_minus5) = true) by (vm_compute; reflexivity).
  assert (Hc : fst (tc_selection ctrl_minus5) = 0%nat) by (vm_compute; reflexivity).
  repeat (split; [assumption |]).
  apply (proj2 (proj2 (onChar_minus_sign ctrl_minus5)) 53%Z Hp Hn Hm Hc).
Defined.

(** C7: the text [75.5] arrives in [onText] while the user types; the
    value goes from 50 to 75.5 with no commit. *)
Lemma onText_revalidates_counterexample :
  __val ctrl_0_100 = Some (float_of_Z 50) /\
  ~ no_revalidation_outside_commit "75.5" ctrl_0_100.
Proof.
  split; [vm_compute; reflexivity |].
  intros [Hv _]. vm_compute in Hv. discriminate Hv.
Qed.

Lemma filtering_frame_witness :
  53%Z <> WXK_RETURN /\
  exists skip, onChar 53 ctrl_0_100 = (ctrl_0_100, inr skip).
Proof.
  assert (Hk : 53%Z <> WXK_RETURN) by (unfold WXK_RETURN; lia).
  split; [exact Hk |].
  apply (proj1 filtering_frame 53%Z ctrl_0_100 Hk).
Defined.

(** C10: the user types a minus sign in the control without bounds; [onText]
    stores [None], and [GetValue] raises. *)
Lemma GetValue_None_raises_witness :
  __val (onText "-" ctrl_free) = None /\
  __prec (onText "-" ctrl_free) = 0%Z /\
  GetValue (onText "-" ctrl_free) = inl TypeError.
Proof.
  assert (Hv : __val (onText "-" ctrl_free) = None) by (vm_compute; reflexivity).
  assert (Hp : __prec (onText "-" ctrl_free) = 0%Z) by (vm_compute; reflexivity).
  split; [exact Hv |]. split; [exact Hp |].
  apply (GetValue_None_raises (onText "-" ctrl_free) Hv Hp).
Defined.

End Examples.

(** ** More worked examples *)

Section MoreExamples.

#[local] Existing Instance demo_env.


(** X3 on [SetValue('42')] with bounds 0 and 100. *)
Lemma SetValue_text_is_value_witness :
  snd (SetValue (PyStr "42") true ctrl_0_100) = inr tt /\
  exists x,
    __val (fst (SetValue (PyStr "42") true ctrl_0_100)) = Some x /\
    tc_value (fst (SetValue (PyStr "42") true ctrl_0_100))
    = py_format_fixed (format (fst (SetValue (PyStr "42") true ctrl_0_100))) x.
Proof.
  assert (Hr : snd (SetValue (PyStr "42") true ctrl_0_100) = inr tt)
    by (vm_compute; reflexivity).
  split; [exact Hr |].
  apply (proj1 (SetValue_text_is_value (PyStr "42") true ctrl_0_100) Hr).
Defined.


(** X5: [SetMin('200')] on bounds 0 and 100 inverts them; 50 is then
    clamped to 100. *)
Lemma SetValue_inverted_bounds_witness :
  __min (SetMin (PyStr "200") ctrl_0_100) = Some (float_of_Z 200) /\
  __max (SetMin (PyStr "200") ctrl_0_100) = Some (float_of_Z 100) /\
  float_lt (float_of_Z 100) (float_of_Z 200) = true /\
  set_float (candidate (PyStr "50") (SetMin (PyStr "200") ctrl_0_100)) None
  = Some (float_of_Z 50) /\
  is_nan (float_of_Z 50) = false /\
  exists c',
    SetValue (PyStr "50") true (SetMin (PyStr "200") ctrl_0_100) = (c', inr tt) /\
    __val c' = Some (float_of_Z 100) /\ __valid c' = false /\
    tc_value c'
    = py_format_fixed (format (SetMin (PyStr "200") ctrl_0_100)) (float_of_Z 100) /\
    bells c' = S (bells (SetMin (PyStr "200") ctrl_0_100)) /\
    calls c' = calls (SetMin (PyStr "200") ctrl_0_100).
Proof.
  assert (H1 : __min (SetMin (PyStr "200") ctrl_0_100) = Some (float_of_Z 200))
    by (vm_compute; reflexivity).
  assert (H2 : __max (SetMin (PyStr "200") ctrl_0_100) = Some (float_of_Z 100))
    by (vm_compute; reflexivity).
  assert (H3 : float_lt (float_of_Z 100) (float_of_Z 200) = true)
    by (vm_compute; reflexivity).
  assert (H4 : set_float (candidate (PyStr "50") (SetMin (PyStr "200") ctrl_0_100))
                 None = Some (float_of_Z 50)) by (vm_compute; reflexivity).
  assert (H5 : is_nan (float_of_Z 50) = false) by (vm_compute; reflexivity).
  repeat (split; [assumption |]).
  apply (SetValue_inverted_bounds (PyStr "50") true _ _ _ _ H1 H2 H3 H4 H5).
Defined.

(** X7 on a NaN given to the control with bounds 0 and 100. *)
Lemma SetValue_nan_accepted_witness :
  set_float (candidate (PyFloat S754_nan) ctrl_0_100) None = Some S754_nan /\
  is_nan S754_nan = true /\
  exists c',
    SetValue (PyFloat S754_nan) true ctrl_0_100 = (c', inr tt) /\
    __valid c' = true /\ __val c' = Some S754_nan /\
    bells c' = bells ctrl_0_100 /\
    (forall f, func (__action ctrl_0_100) = Some f ->
               calls c' = (calls ctrl_0_100
                           ++ [commit_call ctrl_0_100 f S754_nan])%list).
Proof.
  split; [reflexivity |]. split; [reflexivity |].
  apply (SetValue_nan_accepted (PyFloat S754_nan) ctrl_0_100 S754_nan);
    reflexivity.
Defined.


(** X10 on the key [5]. *)
Lemma onChar_digit_witness :
  digit_key 53 /\
  onChar 53 ctrl_minus5
  = (ctrl_minus5,
     inr (negb (py_in "-" (tc_value ctrl_minus5)
                && (fst (tc_selection ctrl_minus5) =? 0)%nat))).
Proof.
  assert (Hk : digit_key 53) by (unfold digit_key; lia).
  split; [exact Hk |]. apply (onChar_digit 53 ctrl_minus5 Hk).
Defined.

(** X11 on the key [a]. *)
Lemma onChar_alphabet_witness :
  printable 97 /\ py_in (chr 97) __digits = false /\
  onChar 97 ctrl_0_100 = (ctrl_0_100, inr false).
Proof.
  assert (Hp : printable 97) by (unfold printable, WXK_SPACE, WXK_DELETE; lia).
  assert (Hn : py_in (chr 97) __digits = false) by reflexivity.
  split; [exact Hp |]. split; [exact Hn |].
  apply (proj2 (proj2 (onChar_alphabet 97 ctrl_0_100)) Hp Hn).
Defined.

(** X12: a point typed at the end of [-5]. *)
Lemma onChar_keeps_numeric_shape_witness :
  printable key_dot /\
  (fst (tc_selection (user_edit "-5" 2 ctrl_minus5))
   <= snd (tc_selection (user_edit "-5" 2 ctrl_minus5)))%nat /\
  numeric_shape (tc_value (user_edit "-5" 2 ctrl_minus5)) = true /\
  snd (onChar key_dot (user_edit "-5" 2 ctrl_minus5)) = inr true /\
  numeric_shape (typed (chr key_dot) (user_edit "-5" 2 ctrl_minus5)) = true.
Proof.
  assert (Hp : printable key_dot)
    by (unfold printable, key_dot, WXK_SPACE, WXK_DELETE; lia).
  assert (Hs : (fst (tc_selection (user_edit "-5" 2 ctrl_minus5))
                <= snd (tc_selection (user_edit "-5" 2 ctrl_minus5)))%nat)
    by (vm_compute; lia).
  assert (Hn : numeric_shape (tc_value (user_edit "-5" 2 ctrl_minus5)) = true)
    by (vm_compute; reflexivity).
  assert (Ha : snd (onChar key_dot (user_edit "-5" 2 ctrl_minus5)) = inr true)
    by (vm_compute; reflexivity).
  repeat (split; [assumption |]).
  apply (proj1 (onChar_keeps_numeric_shape key_dot _ Hp Hs Hn Ha)).
Defined.

(** X13: the caret after the third character of [12.50]. *)
Lemma focus_round_trip_witness :
  (fst (tc_selection (user_edit "12.50" 3 ctrl_0_100))
   <= len (strip (tc_value (user_edit "12.50" 3 ctrl_0_100))))%nat /\
  tc_selection (onSetFocus (onKillFocus (user_edit "12.50" 3 ctrl_0_100)))
  = (fst (tc_selection (user_edit "12.50" 3 ctrl_0_100)),
     fst (tc_selection (user_edit "12.50" 3 ctrl_0_100))).
Proof.
  assert (Hc : (fst (tc_selection (user_edit "12.50" 3 ctrl_0_100))
                <= len (strip (tc_value (user_edit "12.50" 3 ctrl_0_100))))%nat)
    by (vm_compute; lia).
  split; [exact Hc |].
  apply (proj2 (proj2 (focus_round_trip (user_edit "12.50" 3 ctrl_0_100))) Hc).
Defined.

(** X14: precision 2, and precision 0 after the user has typed a minus
    sign. *)
Lemma GetValue_outcomes_witness :
  (0 < __prec ctrl_0_100)%Z /\
  (GetValue ctrl_0_100 = inr NumNone \/
   exists x, GetValue ctrl_0_100 = inr (NumFloat x)).
Proof.
  assert (Hp : (0 < __prec ctrl_0_100)%Z) by (vm_compute; reflexivity).
  split; [exact Hp |].
  apply (proj1 (GetValue_outcomes ctrl_0_100) Hp).
Defined.






(** X21: the text [75.5] with bounds 0 and 100. *)
Lemma onText_valid_iff_in_range_witness :
  (exists v,
     set_float (PyStr "75.5") None = Some v /\ is_nan v = false /\
     __valid (onText "75.5" ctrl_0_100) = in_range (__min ctrl_0_100) v (__max ctrl_0_100) /\
     __val (onText "75.5" ctrl_0_100)
     = (if in_range (__min ctrl_0_100) v (__max ctrl_0_100)
        then Some v else __val ctrl_0_100)).
Proof.
  destruct (set_float (PyStr "75.5") None) as [v |] eqn:Hp;
    [| vm_compute in Hp; discriminate Hp].
  assert (Hv : is_nan v = false)
    by (vm_compute in Hp; injection Hp as <-; reflexivity).
  exists v. split; [reflexivity |]. split; [exact Hv |].
  apply (onText_valid_iff_in_range "75.5" ctrl_0_100 v Hp Hv);
    vm_compute; reflexivity.
Defined.

End MoreExamples.
